(** * Code layering rule for a monorepo: the ESLint plugin and its helpers

    A shallow embedding of [utils.js] and of the [code-layering] rule that
    uses it, followed by the properties of the written specification that
    can be settled on this code.

    Representation choices, fixed once for the whole development:
    - a JavaScript string is a [string] (a sequence of code units);
    - an absolute, normalised POSIX path is the list of its segments, so
      ["/"] is [[]], [path.join dir name] appends one segment and
      [path.dirname] drops the last one;
    - the file system is a tree of directories and files; what matters of a
      file is what loading it as a manifest gives;
    - [null] and [undefined] results are [None]; a thrown exception is
      [Throw];
    - [context.report] appends one message to the list of reports. *)

From stdpp Require Import gmap strings list fin_maps.
From Stdlib Require Import Ascii.
From Stdlib Require String.

(** ** JavaScript string methods used by the sources *)

Module Js.

(** [s.startsWith(p)]; only used to define the searches below. *)
Fixpoint startsWith (p s : string) : bool :=
  match p, s with
  | EmptyString, _ => true
  | String _ _, EmptyString => false
  | String a p', String b s' => if Ascii.eqb a b then startsWith p' s' else false
  end.

(** [s.slice(n)] *)
Fixpoint slice (n : nat) (s : string) : string :=
  match n, s with
  | O, _ => s
  | S _, EmptyString => EmptyString
  | S n', String _ s' => slice n' s'
  end.

(** [s.includes(p)] *)
Fixpoint includes (p s : string) : bool :=
  if startsWith p s then true
  else match s with
       | EmptyString => false
       | String _ s' => includes p s'
       end.

(** [s.replace(p, r)] for a string pattern [p]: only the first (leftmost)
    occurrence is replaced. The sources only ever pass the empty string for [r], so the
    [$]-patterns of the replacement string do not arise. *)
Fixpoint replace (p r s : string) : string :=
  if startsWith p s then r +:+ slice (String.length p) s
  else match s with
       | EmptyString => EmptyString
       | String c s' => String c (replace p r s')
       end.

(** [s.split(sep)] for a one-character separator. *)
Fixpoint split (sep : ascii) (s : string) : list string :=
  match s with
  | EmptyString => [EmptyString]
  | String c s' =>
      if Ascii.eqb c sep then EmptyString :: split sep s'
      else match split sep s' with
           | [] => [String c EmptyString]
           | seg :: segs => String c seg :: segs
           end
  end.

(** [segments.join(sep)] *)
Fixpoint join (sep : string) (segments : list string) : string :=
  match segments with
  | [] => EmptyString
  | [seg] => seg
  | seg :: rest => seg +:+ sep +:+ join sep rest
  end.

(** [s.endsWith(c)] for one character. *)
Fixpoint endsWithChar (c : ascii) (s : string) : bool :=
  match s with
  | EmptyString => false
  | String a EmptyString => Ascii.eqb a c
  | String _ s' => endsWithChar c s'
  end.

End Js.

(** ** Results of computations that may throw *)

Inductive exn : Type :=
| TypeError      (* a method called on [undefined], iteration over [undefined] *)
| RequireError   (* loading a manifest, or reading its [name], failed *)
| FsError.       (* [readdirSync] or [readFileSync] on something that is not there *)

Inductive result (A : Type) : Type :=
| Ok (a : A)
| Throw (e : exn).
Arguments Ok {A} a.
Arguments Throw {A} e.

Definition bind {A B : Type} (r : result A) (k : A -> result B) : result B :=
  match r with
  | Ok a => k a
  | Throw e => Throw e
  end.

Notation "'try!' x ':=' r 'in' k" := (bind r (fun x => k))
  (at level 10, x name, r at level 100, k at level 200).

(** ** Node's [path] module (POSIX), after its documented behaviour *)

Abbreviation path := (list string).

Module Path.

(** [path.join(dir, name)] for a normalised [dir] and a plain segment. *)
Definition join (dir : path) (name : string) : path := dir ++ [name].

(** [path.dirname(p)]; [dirname "/"] is ["/"]. *)
Definition dirname (p : path) : path := removelast p.

(** One step of Node's [normalizeString]: [res] is the stack of segments
    kept so far. Empty segments and ["."] are dropped; [".."] removes the
    last kept segment unless there is none or it is itself [".."], in
    which case it is kept only when the path is not absolute. *)
Definition normalizeStep (allowAboveRoot : bool) (res : list string)
    (segment : string) : list string :=
  if String.eqb segment EmptyString || String.eqb segment "." then res
  else if String.eqb segment ".." then
    match last res with
    | Some l =>
        if negb (String.eqb l "..") then removelast res
        else if allowAboveRoot then res ++ [".."] else res
    | None => if allowAboveRoot then [".."] else []
    end
  else res ++ [segment].

Definition normalizeString (allowAboveRoot : bool) (p : string) : string :=
  Js.join "/" (fold_left (normalizeStep allowAboveRoot) (Js.split "/"%char p) []).

(** [path.normalize(p)] on text, as imports are written. *)
Definition normalize (p : string) : string :=
  if String.eqb p EmptyString then "."
  else
    let isAbsolute := Js.startsWith "/" p in
    let trailingSeparator := Js.endsWithChar "/"%char p in
    let res := normalizeString (negb isAbsolute) p in
    if String.eqb res EmptyString then
      if isAbsolute then "/" else if trailingSeparator then "./" else "."
    else
      let res := if trailingSeparator then res +:+ "/" else res in
      if isAbsolute then "/" +:+ res else res.

End Path.

(** ** The file system *)

(** What loading a file as a package manifest gives: either loading it or
    reading its [name] throws, or it is an object whose [name] field is a
    string or is absent. The tree below has directories and regular files
    only; links and directories that cannot be listed are left out. *)
Inductive manifest : Type :=
| Malformed
| Manifest (name : option string).

#[warnings="-register-all"]
Inductive entry : Type :=
| File (content : manifest)
| Dir (files : list (string * entry)).

Module Fs.

Fixpoint assoc (name : string) (files : list (string * entry)) : option entry :=
  match files with
  | [] => None
  | (n, e) :: rest => if String.eqb n name then Some e else assoc name rest
  end.

(** The entry found at a path, from the root of the file system. *)
Fixpoint resolve (root : entry) (p : path) : option entry :=
  match p with
  | [] => Some root
  | segment :: rest =>
      match root with
      | Dir files =>
          match assoc segment files with
          | Some child => resolve child rest
          | None => None
          end
      | File _ => None
      end
  end.

(** [fs.existsSync(p)] *)
Definition existsSync (root : entry) (p : path) : bool :=
  match resolve root p with
  | Some _ => true
  | None => false
  end.

(** [JSON.parse(fs.readFileSync(p, "utf8"))] followed by reading [.name];
    [require(p).name] behaves alike. *)
Definition readManifestName (root : entry) (p : path) : result (option string) :=
  match resolve root p with
  | Some (File (Manifest name)) => Ok name
  | Some (File Malformed) => Throw RequireError
  | Some (Dir _) => Throw FsError
  | None => Throw FsError
  end.

End Fs.

(** ** utils.js *)

(** The rule's configuration: one object per governed package. The schema
    only requires [target]; [allow] and [restrict] may be left out, and are
    then [undefined]. *)
Record policy : Type := Policy {
  target : string;
  allow : option (list string);
  restrict : option (list string)
}.

(** The [Map] from package directories to the names their manifests
    declare; a manifest without a [name] gives the value [undefined]. *)
Abbreviation registry := (gmap path (option string)).

(** The reports made so far through [context.report]. *)
Abbreviation reports := (list string).

Section Utils.

(** The [name] of the manifest of the working directory, read when the
    module is loaded; wherever it is used it is turned into text. *)
Variable rootPackageName : string.

(** The file system and [process.cwd()]. *)
Variable fs : entry.
Variable cwd : path.

Definition getPackageNameFromPath (importPath : string) (currentFilePath : path)
    : option string :=
  let normalizedPath := Path.normalize importPath in
  let pathSegments := Js.split "/"%char normalizedPath in
  let packageNameSegment :=
    List.find (fun segment =>
                 negb (String.eqb segment "..") && negb (String.eqb segment ".")
                 && negb (String.eqb segment EmptyString))
              pathSegments in
  match packageNameSegment with
  | None => None
  | Some packageNameSegment =>
      let rootDirectory := cwd in
      let packageJsonPath :=
        Path.join (Path.join rootDirectory packageNameSegment) "package.json" in
      match Fs.readManifestName fs packageJsonPath with
      | Ok (Some name) => if String.eqb name EmptyString then None else Some name
      | Ok None => None
      | Throw _ => None
      end
  end.

Definition isRelativeImport (importPath : string) : bool :=
  Js.includes ".." importPath.

(** The text that [getShortPackageName] removes: [`@${rootPackageName}/`]. *)
Definition namespacePrefix : string := "@" +:+ rootPackageName +:+ "/".

Definition getShortPackageName (currentPackageName : string) : string :=
  Js.replace namespacePrefix EmptyString currentPackageName.

(** The same call on a value that may be [undefined]. *)
Definition getShortPackageName_of (currentPackageName : option string)
    : result string :=
  match currentPackageName with
  | Some name => Ok (getShortPackageName name)
  | None => Throw TypeError
  end.

Definition findConfigByPackageName (options : list policy)
    (currentPackageName : option string) : result policy :=
  try! shortPackageName := getShortPackageName_of currentPackageName in
  let packageConfig :=
    match List.find (fun p => String.eqb shortPackageName (target p)) options with
    | Some found => found
    | None => {| target := shortPackageName;
                 allow := Some ["*"];
                 restrict := Some [] |}
    end in
  Ok packageConfig.

(** [traverse(dir)] on the directory [node] found at [dir]; the map is
    threaded through. Directories named [node_modules] are not entered;
    a file named [package.json] is loaded with [require]. *)
Fixpoint traverse (dir : path) (node : entry) (packageMap : registry)
    {struct node} : result registry :=
  match node with
  | File _ => Throw FsError
  | Dir files =>
      (fix for_of (files : list (string * entry)) (packageMap : registry)
           {struct files} : result registry :=
         match files with
         | [] => Ok packageMap
         | (file, child) :: rest =>
             let fullPath := Path.join dir file in
             match child with
             | Dir _ =>
                 if negb (String.eqb file "node_modules") then
                   try! packageMap := traverse fullPath child packageMap in
                   for_of rest packageMap
                 else for_of rest packageMap
             | File content =>
                 if String.eqb file "package.json" then
                   match content with
                   | Malformed => Throw RequireError
                   | Manifest packageName =>
                       for_of rest (<[dir := packageName]> packageMap)
                   end
                 else for_of rest packageMap
             end
         end) files packageMap
  end.

Definition findInternalPackageNames : result registry :=
  let rootDirectory := cwd in
  match Fs.resolve fs rootDirectory with
  | Some node => traverse rootDirectory node ∅
  | None => Throw FsError
  end.

(** The loop of [findPackageJson], on the directory read from its last
    segment upwards: [innermost :: outer] stands for the directory
    [rev (innermost :: outer)], and [[]] for ["/"], where the loop ends. *)
Fixpoint findPackageJson_from (currentDir : list string) : option path :=
  match currentDir with
  | [] => None
  | _ :: parent =>
      let packageJsonPath := Path.join (rev currentDir) "package.json" in
      if Fs.existsSync fs packageJsonPath then Some (rev currentDir)
      else findPackageJson_from parent
  end.

Definition findPackageJson (filePath : path) : option path :=
  findPackageJson_from (rev (Path.dirname filePath)).

(** The sign that frames every message: the four characters that the
    template literal of [reportLayerBreakingImport] holds on either side,
    as UTF-8 (C3 B0, C5 B8, C5 A1, C2 A8). *)
Definition siren : string :=
  String "195" (String "176" (String "197" (String "184"
    (String "197" (String "161" (String "194" (String "168" EmptyString))))))).

Definition reportLayerBreakingImport (context : reports) (message : string)
    : reports :=
  context ++ [siren +:+ " " +:+ message +:+ " " +:+ siren].

End Utils.

(** ** The rule [code-layering] *)

Section Rule.

Variable rootPackageName : string.
Variable fs : entry.
Variable cwd : path.

(** The registry built when the plugin is loaded. *)
Variable packageMap : registry.

(** [a !== b] between the result of [getPackageNameFromPath], a string or
    [null], and the current package name, a string or [undefined]. *)
Definition strictNotEqual (imported current : option string) : bool :=
  match imported, current with
  | Some a, Some b => negb (String.eqb a b)
  | _, _ => true
  end.

Definition handleRelativeImport (context : reports) (filename : path)
    (currentPackageName : option string) (importPath : string) : reports :=
  let importedPackageName := getPackageNameFromPath fs cwd importPath filename in
  if strictNotEqual importedPackageName currentPackageName then
    reportLayerBreakingImport context "Layer-breaking relative import detected"
  else context.

(** The double quote that the messages put around package names. *)
Definition quote : string := String "034" EmptyString.

Definition notInAllowList (shortImportPackageName shortCurrentPackageName : string)
    : string :=
  "Layer-breaking: " +:+ quote +:+ shortImportPackageName +:+ quote
    +:+ " is not in allow-list of " +:+ quote +:+ shortCurrentPackageName +:+ quote.

Definition restrictedFrom (shortCurrentPackageName packageName : string) : string :=
  "Layer-breaking: " +:+ quote +:+ shortCurrentPackageName +:+ quote
    +:+ " is restricted from importing " +:+ quote +:+ packageName +:+ quote.

(** The [for ... of restrict] loop, which returns at the first match. *)
Fixpoint restrictLoop (context : reports) (shortCurrentPackageName
    shortImportPackageName : string) (restrict : list string) : reports :=
  match restrict with
  | [] => context
  | packageName :: rest =>
      if String.eqb packageName shortImportPackageName then
        reportLayerBreakingImport context
          (restrictedFrom shortCurrentPackageName packageName)
      else restrictLoop context shortCurrentPackageName shortImportPackageName rest
  end.

Definition handleAbsoluteImport (context : reports)
    (currentPackageName : option string) (allow restrict : option (list string))
    (importPath : string) : result reports :=
  let shortImportPackageName := getShortPackageName rootPackageName importPath in
  try! shortCurrentPackageName :=
    getShortPackageName_of rootPackageName currentPackageName in
  match allow with
  | None => Throw TypeError
  | Some allow =>
      let allowed :=
        existsb (fun packageName =>
                   String.eqb packageName "*"
                   || String.eqb packageName shortImportPackageName) allow in
      if negb allowed then
        Ok (reportLayerBreakingImport context
              (notInAllowList shortImportPackageName shortCurrentPackageName))
      else
        match restrict with
        | None => Throw TypeError
        | Some restrict =>
            Ok (restrictLoop context shortCurrentPackageName
                  shortImportPackageName restrict)
        end
  end.

(** What [create] leaves in the closure of the visitor it returns. *)
Record visitor : Type := Visitor {
  filename : path;
  currentPackageName : option string;
  visitor_allow : option (list string);
  visitor_restrict : option (list string)
}.

(** [packageMap.get(packagePath)]: no key is [null], and a key bound to
    [undefined] reads as [undefined] too. *)
Definition packageMap_get (packagePath : option path) : option string :=
  match packagePath with
  | Some dir =>
      match packageMap !! dir with
      | Some name => name
      | None => None
      end
  | None => None
  end.

Definition create (options : list policy) (file : path) : result visitor :=
  let packagePath := findPackageJson fs file in
  let currentPackageName := packageMap_get packagePath in
  try! config := findConfigByPackageName rootPackageName options currentPackageName in
  Ok {| filename := file;
        currentPackageName := currentPackageName;
        visitor_allow := allow config;
        visitor_restrict := restrict config |}.

Definition ImportDeclaration (v : visitor) (context : reports) (importPath : string)
    : result reports :=
  if negb (Js.includes rootPackageName importPath) then Ok context
  else if isRelativeImport importPath then
    Ok (handleRelativeImport context (filename v) (currentPackageName v) importPath)
  else
    handleAbsoluteImport context (currentPackageName v) (visitor_allow v)
      (visitor_restrict v) importPath.

(** The host's part: the rule is created once for a file and its visitor
    is called on every import of the file, in order. *)
Fixpoint visitImports (v : visitor) (context : reports) (imports : list string)
    : result reports :=
  match imports with
  | [] => Ok context
  | importPath :: rest =>
      try! context := ImportDeclaration v context importPath in
      visitImports v context rest
  end.

Definition lint (options : list policy) (file : path) (imports : list string)
    : result reports :=
  try! v := create options file in
  visitImports v [] imports.

End Rule.

(** ** The plugin as a whole, and a sample repository *)

(** Loading the plugin builds the registry; linting a file then creates the
    rule for it and visits its imports. *)
Definition codeLayering (rootPackageName : string) (fs : entry) (cwd : path)
    (options : list policy) (file : path) (imports : list string) : result reports :=
  try! packageMap := findInternalPackageNames fs cwd in
  lint rootPackageName fs cwd packageMap options file imports.

(** A source file: not a manifest. *)
Definition sourceFile : entry := File Malformed.

(** A repository [/repo] named [root] with the packages [core] and [ui]
    directly under it, one installed dependency, and a file outside of the
    repository. *)
Definition sampleFs : entry :=
  Dir [("repo",
        Dir [("package.json", File (Manifest (Some "root")));
             ("core", Dir [("package.json", File (Manifest (Some "@root/core")));
                           ("index.js", sourceFile)]);
             ("ui", Dir [("package.json", File (Manifest (Some "@root/ui")));
                         ("button.js", sourceFile)]);
             ("node_modules",
              Dir [("dep", Dir [("package.json", File (Manifest (Some "dep")));
                                ("index.js", sourceFile)])])]);
       ("tmp", Dir [("scratch.js", sourceFile)])].

Definition sampleCwd : path := ["repo"].

(** The registry that loading the plugin in [/repo] builds. *)
Definition sampleRegistry : registry :=
  match findInternalPackageNames sampleFs sampleCwd with
  | Ok packageMap => packageMap
  | Throw _ => ∅
  end.

Definition coreIndex : path := ["repo"; "core"; "index.js"].

(** The same repository with one more package, whose manifest is not valid
    JSON. *)
Definition brokenFs : entry :=
  Dir [("repo",
        Dir [("package.json", File (Manifest (Some "root")));
             ("core", Dir [("package.json", File (Manifest (Some "@root/core")));
                           ("index.js", sourceFile)]);
             ("draft", Dir [("package.json", File Malformed)])])].

(** A repository whose packages lie one level deeper, under [packages]. *)
Definition nestedFs : entry :=
  Dir [("repo",
        Dir [("package.json", File (Manifest (Some "root")));
             ("packages",
              Dir [("ui", Dir [("package.json", File (Manifest (Some "@root/ui")));
                               ("src", Dir [("button.js", sourceFile);
                                            ("root.js", sourceFile)])])])])].

Definition nestedButton : path := ["repo"; "packages"; "ui"; "src"; "button.js"].

(** ** Notions used to state the properties of path segments *)

(** A text without the separator. *)
Fixpoint slashFree (s : string) : bool :=
  match s with
  | EmptyString => true
  | String c rest => negb (Ascii.eqb c "/") && slashFree rest
  end.

(** The segments that [getPackageNameFromPath] looks for. *)
Definition realSegment (segment : string) : bool :=
  negb (String.eqb segment "..") && negb (String.eqb segment ".")
  && negb (String.eqb segment EmptyString).

(** ** Notions used to state the properties of the scan *)

(** The [for ... of files] loop of [traverse], under a name. *)
Fixpoint traverse_for_of (dir : path) (files : list (string * entry))
    (packageMap : registry) {struct files} : result registry :=
  match files with
  | [] => Ok packageMap
  | (file, child) :: rest =>
      let fullPath := Path.join dir file in
      match child with
      | Dir _ =>
          if negb (String.eqb file "node_modules") then
            try! packageMap := traverse fullPath child packageMap in
            traverse_for_of dir rest packageMap
          else traverse_for_of dir rest packageMap
      | File content =>
          if String.eqb file "package.json" then
            match content with
            | Malformed => Throw RequireError
            | Manifest packageName =>
                traverse_for_of dir rest (<[dir := packageName]> packageMap)
            end
          else traverse_for_of dir rest packageMap
      end
  end.

(** Induction on a tree of entries, with the hypothesis for every child of
    a directory. *)
Fixpoint entry_nested_ind (P : entry -> Prop)
    (HFile : forall content, P (File content))
    (HDir : forall files, Forall (fun child => P (snd child)) files -> P (Dir files))
    (e : entry) {struct e} : P e :=
  match e with
  | File content => HFile content
  | Dir files =>
      HDir files
        ((fix children (l : list (string * entry))
            : Forall (fun child => P (snd child)) l :=
            match l with
            | [] => List.Forall_nil _
            | child :: rest =>
                @List.Forall_cons _ _ child rest
                  (entry_nested_ind P HFile HDir (snd child)) (children rest)
            end) files)
  end.

(** [visits node rel files]: the directory at the relative path [rel] below
    the directory [node] holds [files], and no directory on the way down to
    it is named [node_modules]. These are the directories that the scan
    started at [node] reads. *)
Inductive visits : entry -> path -> list (string * entry) -> Prop :=
| visits_here (files : list (string * entry)) :
    visits (Dir files) [] files
| visits_below (files : list (string * entry)) (name : string)
    (children : list (string * entry)) (rel : path)
    (found : list (string * entry)) :
    In (name, Dir children) files ->
    name <> "node_modules" ->
    visits (Dir children) rel found ->
    visits (Dir files) (name :: rel) found.

(** Where a key of the registry comes from: a directory that the scan
    started at [node], found at [dir], visits and that holds a manifest
    which loads. *)
Definition scanned (node : entry) (dir : path) (key : path) (name : option string)
    : Prop :=
  exists rel found,
    visits node rel found /\ key = dir ++ rel /\
    In ("package.json", File (Manifest name)) found.

(** A scan keeps the keys there were and adds the directories it visits. *)
Definition grows (node : entry) (dir : path) (before after : registry) : Prop :=
  (forall key, is_Some (before !! key) -> is_Some (after !! key)) /\
  (forall key name, scanned node dir key name -> is_Some (after !! key)).

(** A directory that the scan visits holds a manifest that does not load. *)
Definition unloadable (node : entry) : Prop :=
  exists rel found,
    visits node rel found /\ In ("package.json", File Malformed) found.

(** No two entries of a directory have the same name, anywhere in the tree. *)
Fixpoint distinct (names : list string) : bool :=
  match names with
  | [] => true
  | name :: rest => negb (existsb (String.eqb name) rest) && distinct rest
  end.

Fixpoint uniqueNames (e : entry) : bool :=
  match e with
  | File _ => true
  | Dir files =>
      distinct (map fst files)
      && forallb (fun child => let (_, node) := child : string * entry in
                               uniqueNames node) files
  end.

(** * Properties *)

(** ** Facts about the string methods *)

Module JsFacts.
Import Js.

Local Arguments String.append !_ _ / : simpl nomatch.

Lemma append_empty_r (s : string) : s +:+ EmptyString = s.
Proof. induction s as [|c s IH]; simpl; [reflexivity | now rewrite IH]. Qed.

Lemma append_assoc (a b c : string) : (a +:+ b) +:+ c = a +:+ b +:+ c.
Proof. induction a as [|x a IH]; simpl; [reflexivity | now rewrite IH]. Qed.

Lemma length_append (a b : string) :
  String.length (a +:+ b) = String.length a + String.length b.
Proof. induction a as [|x a IH]; simpl; [reflexivity | now rewrite IH]. Qed.

Lemma startsWith_append (p s : string) : startsWith p (p +:+ s) = true.
Proof.
  induction p as [|c p IH]; simpl; [reflexivity |].
  now rewrite Ascii.eqb_refl.
Qed.

Lemma slice_append (p s : string) : slice (String.length p) (p +:+ s) = s.
Proof. induction p as [|c p IH]; simpl; [reflexivity | exact IH]. Qed.

(** A string that starts with [p] is [p] followed by the rest. *)
Lemma startsWith_split (p s : string) :
  startsWith p s = true -> s = p +:+ slice (String.length p) s.
Proof.
  revert s; induction p as [|c p IH]; intros s H; simpl in *; [reflexivity |].
  destruct s as [|d s]; [discriminate |].
  destruct (Ascii.eqb_spec c d) as [->|]; [| discriminate].
  now rewrite <- IH.
Qed.

Lemma startsWith_iff (p s : string) :
  startsWith p s = true <-> exists rest, s = p +:+ rest.
Proof.
  split.
  - intros H; eexists; now apply startsWith_split.
  - intros [rest ->]; apply startsWith_append.
Qed.

Lemma includes_startsWith (p s : string) :
  startsWith p s = true -> includes p s = true.
Proof. intros H. destruct s; simpl; now rewrite H. Qed.

Lemma replace_startsWith (p r s : string) :
  startsWith p s = true -> replace p r s = r +:+ slice (String.length p) s.
Proof. intros H. destruct s; simpl; now rewrite H. Qed.

(** [includes] finds an occurrence exactly when there is one. *)
Lemma includes_iff (p s : string) :
  includes p s = true <-> exists a b, s = a +:+ p +:+ b.
Proof.
  split.
  - induction s as [|c s IH]; simpl.
    + destruct (startsWith p EmptyString) eqn:E; [| discriminate].
      intros _. apply startsWith_iff in E as [rest E].
      now exists EmptyString, rest.
    + destruct (startsWith p (String c s)) eqn:E.
      * intros _. apply startsWith_iff in E as [rest E].
        now exists EmptyString, rest.
      * intros H. destruct (IH H) as (a & b & ->).
        now exists (String c a), b.
  - intros (a & b & ->).
    induction a as [|c a IH].
    + change (EmptyString +:+ p +:+ b) with (p +:+ b).
      apply includes_startsWith, startsWith_append.
    + change (String c a +:+ p +:+ b) with (String c (a +:+ p +:+ b)).
      simpl. rewrite IH. now destruct (startsWith p _).
Qed.

Lemma includes_append (p a b : string) : includes p (a +:+ p +:+ b) = true.
Proof. apply includes_iff; eauto. Qed.

(** Without an occurrence, [replace] returns its argument. *)
Lemma replace_absent (p r s : string) :
  includes p s = false -> replace p r s = s.
Proof.
  induction s as [|c s IH]; simpl.
  - now destruct (startsWith p EmptyString).
  - destruct (startsWith p (String c s)); [discriminate |].
    intros H. now rewrite IH.
Qed.

(** A leading occurrence is the one replaced. *)
Lemma replace_leading (p r s : string) : replace p r (p +:+ s) = r +:+ s.
Proof.
  rewrite replace_startsWith by apply startsWith_append.
  now rewrite slice_append.
Qed.

(** With an occurrence, [replace] rewrites the leftmost one. *)
Lemma replace_present (p r s : string) :
  includes p s = true ->
  exists a b, s = a +:+ p +:+ b /\ replace p r s = a +:+ r +:+ b /\
    forall a' b', s = a' +:+ p +:+ b' -> String.length a <= String.length a'.
Proof.
  induction s as [|c s IH]; simpl.
  - destruct (startsWith p EmptyString) eqn:E; [| discriminate].
    intros _. exists EmptyString, (slice (String.length p) EmptyString).
    split; [now apply startsWith_split |]. split; [reflexivity |].
    intros; simpl; lia.
  - destruct (startsWith p (String c s)) eqn:E.
    + intros _. exists EmptyString, (slice (String.length p) (String c s)).
      split; [now apply startsWith_split |]. split; [reflexivity |].
      intros; simpl; lia.
    + intros H. destruct (IH H) as (a & b & Hs & Hr & Hmin).
      exists (String c a), b. split; [simpl; now rewrite <- Hs |].
      split; [simpl; now rewrite Hr |].
      intros a' b' Heq. destruct a' as [|c' a'].
      * simpl in Heq. rewrite Heq, startsWith_append in E. discriminate.
      * simpl in Heq. injection Heq as -> Heq.
        simpl. specialize (Hmin _ _ Heq). lia.
Qed.

(** Removing an occurrence of a non-empty text shortens the string. *)
Lemma replace_shorter (p s : string) :
  includes p s = true ->
  String.length (replace p EmptyString s) + String.length p = String.length s.
Proof.
  intros H. destruct (replace_present p EmptyString s H) as (a & b & -> & -> & _).
  simpl. rewrite !length_append. lia.
Qed.

End JsFacts.

(** ** Short package names *)

Section ShortName.
Import Js JsFacts.

Variable rootPackageName : string.

Local Abbreviation prefix := (namespacePrefix rootPackageName).
Local Abbreviation short := (getShortPackageName rootPackageName).

Lemma namespacePrefix_length :
  String.length prefix = S (S (String.length rootPackageName)).
Proof.
  unfold namespacePrefix.
  change ("@" +:+ rootPackageName +:+ "/")
    with (String "@" (rootPackageName +:+ "/")).
  cbn [String.length]. rewrite length_append. simpl. lia.
Qed.

Lemma short_leading (rest : string) : short (prefix +:+ rest) = rest.
Proof. unfold getShortPackageName. now rewrite replace_leading. Qed.

Lemma short_absent (x : string) : includes prefix x = false -> short x = x.
Proof. apply replace_absent. Qed.

Lemma short_changes (x : string) : includes prefix x = true -> short x <> x.
Proof.
  intros H E. apply replace_shorter in H.
  unfold getShortPackageName in E. rewrite E, namespacePrefix_length in H. lia.
Qed.

(** C8, as the code has it: [getShortPackageName] removes the leftmost
    occurrence of [@<root>/], wherever it stands. A name that begins with
    the prefix loses exactly that prefix; a name in which the text does
    not occur at all is returned unchanged; and a name in which it
    occurs is returned without its first occurrence. *)
Theorem getShortPackageName_removes_first_occurrence (x : string) :
  (forall rest, x = prefix +:+ rest -> short x = rest) /\
  (includes prefix x = false -> short x = x) /\
  (includes prefix x = true ->
     exists a b, x = a +:+ prefix +:+ b /\ short x = a +:+ b /\
       forall a' b', x = a' +:+ prefix +:+ b' ->
                     String.length a <= String.length a').
Proof.
  split; [| split].
  - intros rest ->. apply short_leading.
  - apply short_absent.
  - intros H.
    destruct (replace_present prefix EmptyString x H) as (a & b & Hx & Hr & Hmin).
    exists a, b. auto.
Qed.

(** C5, as the code has it: applying [getShortPackageName] twice gives the
    same as applying it once exactly when the first result no longer
    contains [@<root>/]. *)
Theorem getShortPackageName_idempotent_iff (x : string) :
  short (short x) = short x <-> includes prefix (short x) = false.
Proof.
  split.
  - intros E. destruct (includes prefix (short x)) eqn:H; [| reflexivity].
    now apply short_changes in H.
  - apply short_absent.
Qed.

End ShortName.

Lemma getShortPackageName_removes_first_occurrence_witness :
  getShortPackageName "root" "@root/ui" = "ui" /\
  getShortPackageName "root" "lodash" = "lodash" /\
  exists a b, "lib/@root/ui" = a +:+ namespacePrefix "root" +:+ b /\
              getShortPackageName "root" "lib/@root/ui" = a +:+ b.
Proof.
  split; [| split].
  - apply (proj1 (getShortPackageName_removes_first_occurrence "root" "@root/ui")).
    reflexivity.
  - apply (proj1 (proj2 (getShortPackageName_removes_first_occurrence "root" "lodash"))).
    reflexivity.
  - destruct (proj2 (proj2 (getShortPackageName_removes_first_occurrence
                              "root" "lib/@root/ui")) eq_refl)
      as (a & b & H1 & H2 & _).
    exists a, b. split; assumption.
Defined.

(** C8 as written fails: a name that does not start with the prefix but
    contains it further on does not pass through unchanged. *)
Lemma getShortPackageName_inner_occurrence :
  Js.startsWith (namespacePrefix "root") "lib/@root/ui" = false /\
  getShortPackageName "root" "lib/@root/ui" = "lib/ui" /\
  getShortPackageName "root" "lib/@root/ui" <> "lib/@root/ui".
Proof. split; [reflexivity | split; [reflexivity | discriminate]]. Qed.

Lemma getShortPackageName_idempotent_iff_witness :
  getShortPackageName "root" (getShortPackageName "root" "@root/ui")
  = getShortPackageName "root" "@root/ui".
Proof.
  apply (proj2 (getShortPackageName_idempotent_iff "root" "@root/ui")).
  reflexivity.
Defined.

(** C5 as written fails: removing the first occurrence can bring a new one
    together, which a second application then removes. *)
Lemma getShortPackageName_not_idempotent :
  getShortPackageName "root" "@ro@root/ot/ui" = "@root/ui" /\
  getShortPackageName "root" (getShortPackageName "root" "@ro@root/ot/ui") = "ui" /\
  getShortPackageName "root" (getShortPackageName "root" "@ro@root/ot/ui")
  <> getShortPackageName "root" "@ro@root/ot/ui".
Proof. split; [reflexivity | split; [reflexivity | discriminate]]. Qed.


(** ** The decision on one import *)

Section Decision.

Variable rootPackageName : string.
Variable fs : entry.
Variable cwd : path.

Local Abbreviation short := (getShortPackageName rootPackageName).

(** A message as [context.report] receives it. *)
Local Abbreviation framed message := (siren +:+ " " +:+ message +:+ " " +:+ siren).

Lemma allowed_iff (shortImportPackageName : string) (allow : list string) :
  existsb (fun packageName =>
             String.eqb packageName "*"
             || String.eqb packageName shortImportPackageName) allow = true
  <-> In "*" allow \/ In shortImportPackageName allow.
Proof.
  rewrite existsb_exists. split.
  - intros (e & Hin & He). apply orb_true_iff in He as [He | He];
      apply String.eqb_eq in He; subst; auto.
  - intros [H | H]; eexists; (split; [exact H |]);
      rewrite String.eqb_refl; auto using orb_true_r.
Qed.

Lemma not_allowed_iff (shortImportPackageName : string) (allow : list string) :
  existsb (fun packageName =>
             String.eqb packageName "*"
             || String.eqb packageName shortImportPackageName) allow = false
  <-> ~ In "*" allow /\ ~ In shortImportPackageName allow.
Proof.
  rewrite <- not_true_iff_false, allowed_iff. tauto.
Qed.

Lemma restrictLoop_hit (context : reports) (cur imp : string) (restrict : list string) :
  In imp restrict ->
  restrictLoop context cur imp restrict = context ++ [framed (restrictedFrom cur imp)].
Proof.
  induction restrict as [|packageName rest IH]; simpl; [tauto |].
  intros H. destruct (String.eqb_spec packageName imp) as [-> | Hne].
  - reflexivity.
  - destruct H as [H | H]; [contradiction | auto].
Qed.

Lemma restrictLoop_miss (context : reports) (cur imp : string) (restrict : list string) :
  ~ In imp restrict -> restrictLoop context cur imp restrict = context.
Proof.
  induction restrict as [|packageName rest IH]; simpl; [reflexivity |].
  intros H. destruct (String.eqb_spec packageName imp) as [-> | Hne]; [tauto |].
  apply IH. tauto.
Qed.

(** The three outcomes of [handleAbsoluteImport] for a current package
    name that is a string and an [allow] that is an array. *)
Lemma handleAbsoluteImport_cases (context : reports) (current : string)
    (allow : list string) (restrict : option (list string)) (importPath : string) :
  (~ In "*" allow -> ~ In (short importPath) allow ->
   handleAbsoluteImport rootPackageName context (Some current) (Some allow) restrict
     importPath
   = Ok (context ++ [framed (notInAllowList (short importPath) (short current))])) /\
  (forall restricted, restrict = Some restricted ->
     In "*" allow \/ In (short importPath) allow ->
     (In (short importPath) restricted ->
      handleAbsoluteImport rootPackageName context (Some current) (Some allow) restrict
        importPath
      = Ok (context ++ [framed (restrictedFrom (short current) (short importPath))])) /\
     (~ In (short importPath) restricted ->
      handleAbsoluteImport rootPackageName context (Some current) (Some allow) restrict
        importPath
      = Ok context)).
Proof.
  unfold handleAbsoluteImport; simpl. split.
  - intros H1 H2. now rewrite (proj2 (not_allowed_iff _ _) (conj H1 H2)).
  - intros restricted -> H. rewrite (proj2 (allowed_iff _ _) H). simpl. split; intros Hr.
    + now rewrite restrictLoop_hit.
    + now rewrite restrictLoop_miss.
Qed.

(** An import that contains the root package name and no [..] is handed to
    [handleAbsoluteImport]. *)
Lemma ImportDeclaration_absolute (v : visitor) (context : reports)
    (importPath : string) :
  Js.includes rootPackageName importPath = true ->
  isRelativeImport importPath = false ->
  ImportDeclaration rootPackageName fs cwd v context importPath
  = handleAbsoluteImport rootPackageName context (currentPackageName v)
      (visitor_allow v) (visitor_restrict v) importPath.
Proof.
  intros Hinternal Habsolute. unfold ImportDeclaration.
  now rewrite Hinternal, Habsolute.
Qed.

(** With [allow] present, an absolute internal import is first checked
    against it; when neither the wildcard nor its short name is there,
    exactly one report "not in allow-list" is made, whatever [restrict] is
    (even absent). Otherwise, with [restrict] present, exactly one report
    "restricted from importing" is made when its short name is in
    [restrict], and none otherwise. *)
Theorem absolute_import_allow_then_restrict (file : path) (context : reports)
    (current : string) (allow : list string) (restrict : option (list string))
    (importPath : string) :
  Js.includes rootPackageName importPath = true ->
  isRelativeImport importPath = false ->
  let v := Visitor file (Some current) (Some allow) restrict in
  (~ In "*" allow -> ~ In (short importPath) allow ->
   ImportDeclaration rootPackageName fs cwd v context importPath
   = Ok (context ++ [framed (notInAllowList (short importPath) (short current))])) /\
  (forall restricted, restrict = Some restricted ->
     In "*" allow \/ In (short importPath) allow ->
     (In (short importPath) restricted ->
      ImportDeclaration rootPackageName fs cwd v context importPath
      = Ok (context ++ [framed (restrictedFrom (short current) (short importPath))])) /\
     (~ In (short importPath) restricted ->
      ImportDeclaration rootPackageName fs cwd v context importPath = Ok context)).
Proof.
  intros Hinternal Habsolute v.
  rewrite (ImportDeclaration_absolute v context importPath Hinternal Habsolute).
  apply handleAbsoluteImport_cases.
Qed.

End Decision.

Lemma absolute_import_allow_then_restrict_witness :
  let core allow restrict := Visitor coreIndex (Some "@root/core")
                               (Some allow) restrict in
  ImportDeclaration "root" sampleFs sampleCwd (core ["data"] None) [] "@root/ui"
  = Ok [siren +:+ " " +:+ notInAllowList "ui" "core" +:+ " " +:+ siren] /\
  ImportDeclaration "root" sampleFs sampleCwd (core ["*"] (Some ["ui"])) [] "@root/ui"
  = Ok [siren +:+ " " +:+ restrictedFrom "core" "ui" +:+ " " +:+ siren] /\
  ImportDeclaration "root" sampleFs sampleCwd (core ["*"] (Some ["ui"])) [] "@root/data"
  = Ok [].
Proof.
  intros core. split; [| split].
  - apply (absolute_import_allow_then_restrict "root" sampleFs sampleCwd
             coreIndex [] "@root/core" ["data"] None "@root/ui");
      [reflexivity | reflexivity | |]; cbv [In]; intuition discriminate.
  - eapply (absolute_import_allow_then_restrict "root" sampleFs sampleCwd
              coreIndex [] "@root/core" ["*"] (Some ["ui"])
              "@root/ui");
      [reflexivity | reflexivity | reflexivity | |]; cbv [In]; auto.
  - eapply (absolute_import_allow_then_restrict "root" sampleFs sampleCwd
              coreIndex [] "@root/core" ["*"] (Some ["ui"])
              "@root/data");
      [reflexivity | reflexivity | reflexivity | |]; cbv [In]; [auto |].
    intuition discriminate.
Defined.

(** ** Matching is on the whole stripped path *)

Section Subpath.
Import Js JsFacts.

Variable rootPackageName : string.
Variable fs : entry.
Variable cwd : path.

Local Abbreviation prefix := (namespacePrefix rootPackageName).
Local Abbreviation short := (getShortPackageName rootPackageName).

Lemma includes_root_in_prefixed (rest : string) :
  includes rootPackageName (prefix +:+ rest) = true.
Proof.
  apply includes_iff. exists "@", ("/" +:+ rest).
  unfold namespacePrefix. now rewrite !append_assoc.
Qed.

Lemma subpath_differs (pkg rest : string) : pkg <> pkg +:+ "/" +:+ rest.
Proof.
  intros E. apply (f_equal String.length) in E.
  rewrite length_append in E.
  change ("/" +:+ rest) with (String "/" rest) in E. simpl in E. lia.
Qed.

(** C10: for an import [@<root>/<pkg>/<rest>] the text compared with the
    entries of [allow] and of [restrict] is the whole of [<pkg>/<rest>],
    which the entry [<pkg>] does not equal. Unless [allow] holds the
    wildcard or that whole text the import is reported as not in the
    allow-list, also when [<pkg>] is in [allow]. When it is allowed, it is
    reported as restricted exactly when [restrict] holds that whole text:
    an entry [<pkg>] in [restrict] does not match either. *)
Theorem subpath_import_not_matched_by_package_entry (file : path)
    (context : reports) (current pkg rest : string) (allow : list string) :
  let importPath := prefix +:+ pkg +:+ "/" +:+ rest in
  let whole := pkg +:+ "/" +:+ rest in
  isRelativeImport importPath = false ->
  short importPath = whole /\
  String.eqb pkg whole = false /\
  (~ In "*" allow -> ~ In whole allow ->
   forall restrict,
     ImportDeclaration rootPackageName fs cwd
       (Visitor file (Some current) (Some allow) restrict) context importPath
     = Ok (context ++ [siren +:+ " " +:+ notInAllowList whole (short current)
                         +:+ " " +:+ siren])) /\
  (In "*" allow \/ In whole allow ->
   forall restricted,
     (In whole restricted ->
      ImportDeclaration rootPackageName fs cwd
        (Visitor file (Some current) (Some allow) (Some restricted)) context
        importPath
      = Ok (context ++ [siren +:+ " " +:+ restrictedFrom (short current) whole
                          +:+ " " +:+ siren])) /\
     (~ In whole restricted ->
      ImportDeclaration rootPackageName fs cwd
        (Visitor file (Some current) (Some allow) (Some restricted)) context
        importPath
      = Ok context)).
Proof.
  intros importPath whole Habsolute.
  assert (Hshort : short importPath = whole) by apply short_leading.
  assert (Hinternal : includes rootPackageName importPath = true)
    by apply includes_root_in_prefixed.
  split; [exact Hshort |]. split; [apply String.eqb_neq, subpath_differs |].
  split.
  - intros Hwild Hexact restrict.
    rewrite ImportDeclaration_absolute by assumption.
    destruct (handleAbsoluteImport_cases rootPackageName context current allow
                restrict importPath) as [Hcase _].
    rewrite Hshort in Hcase. now apply Hcase.
  - intros Hallowed restricted.
    rewrite !ImportDeclaration_absolute by assumption.
    destruct (handleAbsoluteImport_cases rootPackageName context current allow
                (Some restricted) importPath) as [_ Hcase].
    rewrite Hshort in Hcase. now apply Hcase.
Qed.

End Subpath.

Lemma subpath_import_not_matched_by_package_entry_witness :
  let core allow restricted :=
    Visitor coreIndex (Some "@root/core") (Some allow) (Some restricted) in
  getShortPackageName "root" "@root/ui/button" = "ui/button" /\
  String.eqb "ui" "ui/button" = false /\
  ImportDeclaration "root" sampleFs sampleCwd (core ["ui"] []) [] "@root/ui/button"
  = Ok [siren +:+ " " +:+ notInAllowList "ui/button" "core" +:+ " " +:+ siren] /\
  ImportDeclaration "root" sampleFs sampleCwd (core ["ui/button"] ["ui/button"]) []
    "@root/ui/button"
  = Ok [siren +:+ " " +:+ restrictedFrom "core" "ui/button" +:+ " " +:+ siren] /\
  ImportDeclaration "root" sampleFs sampleCwd (core ["*"] ["ui"]) []
    "@root/ui/button"
  = Ok [].
Proof.
  intros core.
  destruct (subpath_import_not_matched_by_package_entry "root" sampleFs sampleCwd
              coreIndex [] "@root/core" "ui" "button" ["ui"] eq_refl)
    as (Hshort & Hdiffers & Hreport & _).
  destruct (subpath_import_not_matched_by_package_entry "root" sampleFs sampleCwd
              coreIndex [] "@root/core" "ui" "button" ["ui/button"] eq_refl)
    as (_ & _ & _ & Hexact).
  destruct (subpath_import_not_matched_by_package_entry "root" sampleFs sampleCwd
              coreIndex [] "@root/core" "ui" "button" ["*"] eq_refl)
    as (_ & _ & _ & Hwild).
  split; [exact Hshort |]. split; [exact Hdiffers |]. split; [| split].
  - apply Hreport; cbv [In]; intuition discriminate.
  - apply Hexact; cbv [In]; auto.
  - apply Hwild; cbv [In]; [auto |]. intuition discriminate.
Defined.

(** ** Linting a file *)

Section Lint.

Variable rootPackageName : string.
Variable fs : entry.
Variable cwd : path.
Variable packageMap : registry.

Local Abbreviation short := (getShortPackageName rootPackageName).

Lemma find_none_intro {A : Type} (f : A -> bool) (l : list A) :
  (forall x, In x l -> f x = false) -> List.find f l = None.
Proof.
  induction l as [|a l IH]; simpl; [reflexivity |].
  intros H. rewrite (H a) by auto. apply IH. auto.
Qed.

(** For a file of a registered package [create] succeeds, whatever the
    configuration is. *)
Lemma create_registered (options : list policy) (file : path) (current : string) :
  packageMap_get packageMap (findPackageJson fs file) = Some current ->
  exists config,
    findConfigByPackageName rootPackageName options (Some current) = Ok config /\
    create rootPackageName fs packageMap options file
    = Ok (Visitor file (Some current) (allow config) (restrict config)).
Proof.
  intros H. unfold create. rewrite H. unfold findConfigByPackageName. simpl.
  eexists. split; reflexivity.
Qed.

(** C3 fails on the code: when the file has no owning package, the current
    package name is [undefined] and [create] throws a [TypeError] from
    [getShortPackageName], whatever the configuration and the imports. *)
Theorem create_throws_without_owning_package (options : list policy) (file : path) :
  packageMap_get packageMap (findPackageJson fs file) = None ->
  create rootPackageName fs packageMap options file = Throw TypeError /\
  forall imports,
    lint rootPackageName fs cwd packageMap options file imports = Throw TypeError.
Proof.
  intros H.
  assert (Hc : create rootPackageName fs packageMap options file = Throw TypeError).
  { unfold create. now rewrite H. }
  split; [exact Hc |]. intros imports. unfold lint. now rewrite Hc.
Qed.

(** Under the default policy no import that is not relative is reported. *)
Lemma visitImports_default (file : path) (current : string) (context : reports)
    (imports : list string) :
  Forall (fun importPath => isRelativeImport importPath = false) imports ->
  visitImports rootPackageName fs cwd
    (Visitor file (Some current) (Some ["*"]) (Some [])) context imports
  = Ok context.
Proof.
  induction 1 as [|importPath rest Habsolute _ IH]; simpl; [reflexivity |].
  unfold ImportDeclaration. rewrite Habsolute.
  destruct (Js.includes rootPackageName importPath); simpl; exact IH.
Qed.

(** C4: a package without an entry in the configuration gets the policy
    that allows everything and restricts nothing, and no absolute import of
    a file of that package is reported. *)
Theorem default_policy_allows_every_absolute_import (options : list policy)
    (file : path) (current : string) (imports : list string) :
  packageMap_get packageMap (findPackageJson fs file) = Some current ->
  (forall p, In p options -> target p <> short current) ->
  Forall (fun importPath => isRelativeImport importPath = false) imports ->
  findConfigByPackageName rootPackageName options (Some current)
  = Ok {| target := short current; allow := Some ["*"]; restrict := Some [] |} /\
  lint rootPackageName fs cwd packageMap options file imports = Ok [].
Proof.
  intros Hfile Hnone Habsolute.
  assert (Hconfig : findConfigByPackageName rootPackageName options (Some current)
                    = Ok {| target := short current; allow := Some ["*"];
                            restrict := Some [] |}).
  { unfold findConfigByPackageName. simpl. rewrite find_none_intro; [reflexivity |].
    intros p Hp. apply String.eqb_neq. intros E. now apply (Hnone p Hp). }
  split; [exact Hconfig |].
  unfold lint, create. rewrite Hfile, Hconfig. simpl.
  now apply visitImports_default.
Qed.

(** C1, as the code has it: in a file of a registered package, a relative
    import whose text contains the root package name and whose target
    resolves to another name than the current package's, or to none, gets
    exactly the report of a layer-breaking relative import, whatever the
    configuration is. *)
Theorem relative_import_to_other_package_reported (options : list policy)
    (file : path) (current : string) (importPath : string) :
  packageMap_get packageMap (findPackageJson fs file) = Some current ->
  isRelativeImport importPath = true ->
  Js.includes rootPackageName importPath = true ->
  getPackageNameFromPath fs cwd importPath file <> Some current ->
  lint rootPackageName fs cwd packageMap options file [importPath]
  = Ok [siren +:+ " " +:+ "Layer-breaking relative import detected" +:+ " " +:+ siren].
Proof.
  intros Hfile Hrelative Hinternal Hother.
  destruct (create_registered options file current Hfile) as (config & _ & Hcreate).
  unfold lint. rewrite Hcreate. simpl.
  unfold ImportDeclaration. rewrite Hinternal, Hrelative. simpl.
  unfold handleRelativeImport.
  destruct (getPackageNameFromPath fs cwd importPath file) as [imported|]; simpl.
  - destruct (String.eqb_spec imported current) as [-> | _]; [congruence | reflexivity].
  - reflexivity.
Qed.

End Lint.

Lemma create_throws_without_owning_package_witness :
  findPackageJson sampleFs ["tmp"; "scratch.js"] = None /\
  create "root" sampleFs sampleRegistry [] ["tmp"; "scratch.js"] = Throw TypeError /\
  lint "root" sampleFs sampleCwd sampleRegistry [] ["tmp"; "scratch.js"] ["lodash"]
  = Throw TypeError.
Proof.
  split; [reflexivity |].
  destruct (create_throws_without_owning_package "root" sampleFs sampleCwd
              sampleRegistry [] ["tmp"; "scratch.js"] eq_refl) as [Hcreate Hlint].
  split; [exact Hcreate | apply Hlint].
Defined.

Lemma default_policy_allows_every_absolute_import_witness :
  lint "root" sampleFs sampleCwd sampleRegistry
    [Policy "ui" (Some []) (Some ["core"])] coreIndex
    ["@root/ui"; "lodash"; "@root/ui/button"]
  = Ok [].
Proof.
  apply (default_policy_allows_every_absolute_import "root" sampleFs sampleCwd
           sampleRegistry [Policy "ui" (Some []) (Some ["core"])] coreIndex
           "@root/core").
  - vm_compute. reflexivity.
  - intros p [<- | []]. discriminate.
  - repeat constructor.
Defined.

Lemma relative_import_to_other_package_reported_witness :
  lint "root" sampleFs sampleCwd sampleRegistry
    [Policy "core" (Some ["*"]) (Some [])] coreIndex ["@root/../ui/button"]
  = Ok [siren +:+ " " +:+ "Layer-breaking relative import detected" +:+ " " +:+ siren].
Proof.
  apply (relative_import_to_other_package_reported "root" sampleFs sampleCwd
           sampleRegistry [Policy "core" (Some ["*"]) (Some [])] coreIndex
           "@root/core").
  - vm_compute. reflexivity.
  - reflexivity.
  - reflexivity.
  - vm_compute. discriminate.
Defined.

(** C1 as written fails: a relative import that leaves the package but
    does not contain the root package name is not looked at. Here a file of
    [@root/core] imports [../ui/button], which resolves to [@root/ui], and
    nothing is reported. *)
Lemma relative_import_without_root_name_not_reported :
  packageMap_get sampleRegistry (findPackageJson sampleFs coreIndex)
  = Some "@root/core" /\
  isRelativeImport "../ui/button" = true /\
  Js.includes "root" "../ui/button" = false /\
  getPackageNameFromPath sampleFs sampleCwd "../ui/button" coreIndex
  = Some "@root/ui" /\
  lint "root" sampleFs sampleCwd sampleRegistry [] coreIndex ["../ui/button"]
  = Ok [] /\
  codeLayering "root" sampleFs sampleCwd [] coreIndex ["../ui/button"] = Ok [].
Proof. repeat split; vm_compute; reflexivity. Qed.

(** ** Building the registry *)

Section Scan.

Local Abbreviation manifestName := "package.json".

Lemma traverse_Dir (dir : path) (files : list (string * entry)) (packageMap : registry) :
  traverse dir (Dir files) packageMap = traverse_for_of dir files packageMap.
Proof.
  revert packageMap.
  induction files as [|[file child] rest IH]; intros packageMap; [reflexivity |].
  change (traverse dir (Dir ((file, child) :: rest)) packageMap) with
    (match child with
     | Dir _ =>
         if negb (String.eqb file "node_modules") then
           bind (traverse (Path.join dir file) child packageMap)
                (fun packageMap => traverse dir (Dir rest) packageMap)
         else traverse dir (Dir rest) packageMap
     | File content =>
         if String.eqb file manifestName then
           match content with
           | Malformed => Throw RequireError
           | Manifest packageName =>
               traverse dir (Dir rest) (<[dir := packageName]> packageMap)
           end
         else traverse dir (Dir rest) packageMap
     end).
  cbn [traverse_for_of].
  destruct child as [content | children].
  - destruct (String.eqb file manifestName); [| apply IH].
    destruct content; [reflexivity | apply IH].
  - destruct (negb (String.eqb file "node_modules")); [| apply IH].
    destruct (traverse (Path.join dir file) (Dir children) packageMap); simpl;
      [apply IH | reflexivity].
Qed.

Lemma visits_avoids_node_modules (node : entry) (rel : path)
    (found : list (string * entry)) :
  visits node rel found -> ~ In "node_modules" rel.
Proof.
  induction 1 as [|files name children rel found _ Hname _ IH]; simpl; [tauto |].
  intros [E | H]; [now apply Hname | now apply IH].
Qed.

Lemma traverse_for_of_sound (dir : path) (files : list (string * entry)) :
  Forall (fun child =>
            forall dir packageMap result key name,
              traverse dir (snd child) packageMap = Ok result ->
              result !! key = Some name ->
              packageMap !! key = Some name \/ scanned (snd child) dir key name)
         files ->
  forall packageMap result key name,
    traverse_for_of dir files packageMap = Ok result ->
    result !! key = Some name ->
    packageMap !! key = Some name \/
    (key = dir /\ In (manifestName, File (Manifest name)) files) \/
    (exists file children,
        In (file, Dir children) files /\ file <> "node_modules" /\
        scanned (Dir children) (Path.join dir file) key name).
Proof.
  induction 1 as [|[file child] rest Hchild _ IH]; intros packageMap result key name.
  - simpl. intros [= <-] H. auto.
  - cbn [traverse_for_of]. simpl in Hchild.
    assert (Hrest : forall start,
               traverse_for_of dir rest start = Ok result ->
               result !! key = Some name ->
               start !! key = Some name \/
               (key = dir /\
                In (manifestName, File (Manifest name)) ((file, child) :: rest)) \/
               (exists file' children,
                   In (file', Dir children) ((file, child) :: rest) /\
                   file' <> "node_modules" /\
                   scanned (Dir children) (Path.join dir file') key name)).
    { intros start Hrun Hkey.
      destruct (IH start result key name Hrun Hkey)
        as [H | [[H1 H2] | (f & c & H1 & H2 & H3)]]; [auto | |].
      - right; left. split; [assumption | now right].
      - right; right. exists f, c. split; [now right | auto]. }
    destruct child as [content | children].
    + destruct (String.eqb_spec file manifestName) as [-> | _]; [| apply Hrest].
      destruct content as [| packageName]; [discriminate |].
      intros Hrun Hkey.
      destruct (Hrest _ Hrun Hkey) as [H | H]; [| auto].
      destruct (decide (dir = key)) as [-> | Hne].
      * rewrite lookup_insert_eq in H. injection H as ->.
        right; left. split; [reflexivity | now left].
      * rewrite lookup_insert_ne in H by assumption. auto.
    + destruct (String.eqb_spec file "node_modules") as [-> | Hname]; cbn [negb];
        [apply Hrest |].
      destruct (traverse (Path.join dir file) (Dir children) packageMap)
        as [inner |] eqn:Hinner; cbn [bind]; [| discriminate].
      intros Hrun Hkey.
      destruct (Hrest _ Hrun Hkey) as [H | H]; [| auto].
      destruct (Hchild _ _ _ _ _ Hinner H) as [H' | H']; [auto |].
      right; right. exists file, children. split; [now left | auto].
Qed.

Lemma traverse_sound (node : entry) :
  forall dir packageMap result key name,
    traverse dir node packageMap = Ok result ->
    result !! key = Some name ->
    packageMap !! key = Some name \/ scanned node dir key name.
Proof.
  induction node as [content | files IH] using entry_nested_ind;
    intros dir packageMap result key name; [discriminate |].
  rewrite traverse_Dir. intros Hrun Hkey.
  destruct (traverse_for_of_sound dir files IH _ _ _ _ Hrun Hkey)
    as [H | [[-> H] | (file & children & Hin & Hname & rel & found & Hv & -> & Hm)]].
  - auto.
  - right. exists [], files. rewrite app_nil_r. auto using visits_here.
  - right. exists (file :: rel), found. split; [eauto using visits_below |].
    split; [| assumption]. unfold Path.join. now rewrite <- app_assoc.
Qed.

(** C9: every directory that the scan registers lies below the working
    directory on a way that has no segment [node_modules]; so nothing under
    a [node_modules] directory of the project is registered, whatever it
    contains. *)
Theorem registry_has_no_node_modules_directory (fs : entry) (cwd : path)
    (packageMap : registry) (key : path) (name : option string) :
  findInternalPackageNames fs cwd = Ok packageMap ->
  packageMap !! key = Some name ->
  exists rel, key = cwd ++ rel /\ ~ In "node_modules" rel.
Proof.
  unfold findInternalPackageNames.
  destruct (Fs.resolve fs cwd) as [node |]; [| discriminate].
  intros Hrun Hkey.
  destruct (traverse_sound node _ _ _ _ _ Hrun Hkey)
    as [H | (rel & found & Hv & -> & _)].
  - now rewrite lookup_empty in H.
  - exists rel. eauto using visits_avoids_node_modules.
Qed.

End Scan.

Lemma registry_has_no_node_modules_directory_witness :
  sampleRegistry !! ["repo"; "node_modules"; "dep"] = None /\
  exists rel, ["repo"; "ui"] = sampleCwd ++ rel /\ ~ In "node_modules" rel.
Proof.
  split; [reflexivity |].
  apply (registry_has_no_node_modules_directory sampleFs sampleCwd sampleRegistry
           ["repo"; "ui"] (Some "@root/ui")); vm_compute; reflexivity.
Defined.

(** ** Manifests that cannot be loaded *)

Section Malformed.

Local Abbreviation manifestName := "package.json".

Lemma traverse_for_of_throw (dir : path) (files : list (string * entry)) :
  Forall (fun child =>
            forall dir packageMap e children,
              snd child = Dir children ->
              traverse dir (snd child) packageMap = Throw e ->
              e = RequireError /\ unloadable (snd child))
         files ->
  forall packageMap e,
    traverse_for_of dir files packageMap = Throw e ->
    e = RequireError /\
    (In (manifestName, File Malformed) files \/
     exists file children,
       In (file, Dir children) files /\ file <> "node_modules" /\
       unloadable (Dir children)).
Proof.
  induction 1 as [|[file child] rest Hchild _ IH]; intros packageMap e.
  - discriminate.
  - cbn [traverse_for_of]. simpl in Hchild.
    assert (Hrest : forall start,
               traverse_for_of dir rest start = Throw e ->
               e = RequireError /\
               (In (manifestName, File Malformed) ((file, child) :: rest) \/
                exists file' children,
                  In (file', Dir children) ((file, child) :: rest) /\
                  file' <> "node_modules" /\ unloadable (Dir children))).
    { intros start Hrun.
      destruct (IH start e Hrun) as [He [H | (f & c & H1 & H2)]];
        (split; [assumption |]).
      - left. now right.
      - right. exists f, c. split; [now right | assumption]. }
    destruct child as [content | children].
    + destruct (String.eqb_spec file manifestName) as [-> | _]; [| apply Hrest].
      destruct content as [| packageName]; [| apply Hrest].
      intros [= <-]. split; [reflexivity |]. left. now left.
    + destruct (String.eqb_spec file "node_modules") as [-> | Hname]; cbn [negb];
        [apply Hrest |].
      destruct (traverse (Path.join dir file) (Dir children) packageMap)
        as [inner | e'] eqn:Hinner; cbn [bind]; [apply Hrest |].
      intros [= ->].
      destruct (Hchild _ _ _ _ eq_refl Hinner) as [-> Hbad].
      split; [reflexivity |]. right. exists file, children.
      split; [now left | auto].
Qed.

(** The scan of a directory only fails on a manifest that does not load. *)
Lemma traverse_throw (node : entry) :
  forall dir packageMap e children,
    node = Dir children ->
    traverse dir node packageMap = Throw e ->
    e = RequireError /\ unloadable node.
Proof.
  induction node as [content | files IH] using entry_nested_ind;
    intros dir packageMap e children; [discriminate |].
  intros _. rewrite traverse_Dir. intros Hrun.
  destruct (traverse_for_of_throw dir files IH _ _ Hrun)
    as [-> [H | (file & sub & Hin & Hname & rel & found & Hv & Hbad)]];
    (split; [reflexivity |]).
  - exists [], files. auto using visits_here.
  - exists (file :: rel), found. eauto using visits_below.
Qed.

Lemma traverse_for_of_unloadable (dir : path) (files : list (string * entry)) :
  forall packageMap,
    In (manifestName, File Malformed) files \/
    (exists file children,
        In (file, Dir children) files /\ file <> "node_modules" /\
        forall start, traverse (Path.join dir file) (Dir children) start
                      = Throw RequireError) ->
    traverse_for_of dir files packageMap = Throw RequireError.
Proof.
  induction files as [|[file child] rest IH]; intros packageMap Hbad.
  - destruct Hbad as [[] | (f & c & [] & _)].
  - cbn [traverse_for_of].
    destruct child as [content | children].
    + destruct (String.eqb_spec file manifestName) as [-> | Hfile].
      * destruct content as [| packageName]; [reflexivity |].
        apply IH. destruct Hbad as [[[=] | H] | (f & c & [[=] | H] & H')]; eauto 6.
      * apply IH.
        destruct Hbad as [[[= -> _] | H] | (f & c & [[=] | H] & H')];
          [contradiction | eauto 6 ..].
    + destruct (String.eqb_spec file "node_modules") as [-> | Hname]; cbn [negb].
      * apply IH.
        destruct Hbad as [[[=] | H] | (f & c & [[= <- <-] | H] & H1 & H2)];
          [eauto 6 | contradiction | eauto 6].
      * destruct (traverse (Path.join dir file) (Dir children) packageMap)
          as [inner | e] eqn:Hinner; cbn [bind].
        -- apply IH.
           destruct Hbad as [[[=] | H] | (f & c & [[= <- <-] | H] & H1 & H2)];
             [eauto 6 | | eauto 6].
           rewrite H2 in Hinner. discriminate.
        -- now destruct (traverse_throw _ _ _ _ _ eq_refl Hinner) as [-> _].
Qed.

Lemma traverse_unloadable (node : entry) (rel : path)
    (found : list (string * entry)) :
  visits node rel found ->
  In (manifestName, File Malformed) found ->
  forall dir packageMap, traverse dir node packageMap = Throw RequireError.
Proof.
  induction 1 as [files | files name children rel found Hin Hname _ IH];
    intros Hbad dir packageMap; rewrite traverse_Dir;
    apply traverse_for_of_unloadable.
  - now left.
  - right. exists name, children. auto.
Qed.

(** C6, as the code has it: when a manifest in a directory that the scan
    visits cannot be loaded, building the registry throws the error of
    [require]; no registry is produced, and so no directory is registered. *)
Theorem malformed_manifest_aborts_registry (fs : entry) (cwd : path) (node : entry)
    (rel : path) (found : list (string * entry)) :
  Fs.resolve fs cwd = Some node ->
  visits node rel found ->
  In (manifestName, File Malformed) found ->
  findInternalPackageNames fs cwd = Throw RequireError.
Proof.
  intros Hcwd Hv Hbad. unfold findInternalPackageNames. rewrite Hcwd.
  now apply (traverse_unloadable node rel found).
Qed.

End Malformed.

Lemma malformed_manifest_aborts_registry_witness :
  findInternalPackageNames brokenFs sampleCwd = Throw RequireError.
Proof.
  eapply (malformed_manifest_aborts_registry brokenFs sampleCwd _ ["draft"]
            [("package.json", File Malformed)]).
  - reflexivity.
  - eapply visits_below; [right; right; left; reflexivity | discriminate |].
    apply visits_here.
  - left. reflexivity.
Defined.

(** C6 as written fails: with one manifest that is not valid JSON the
    registry is not built at all, and linting any file fails with it. *)
Lemma malformed_manifest_is_fatal :
  findInternalPackageNames brokenFs sampleCwd = Throw RequireError /\
  codeLayering "root" brokenFs sampleCwd [] coreIndex ["@root/core"]
  = Throw RequireError.
Proof. split; vm_compute; reflexivity. Qed.

(** ** Finding the package of a file *)

Section Lookup.

Variable fs : entry.

Local Abbreviation manifestName := "package.json".

Lemma findPackageJson_from_spec (currentDir : list string) :
  match findPackageJson_from fs currentDir with
  | Some dir =>
      exists n, 0 < n <= length currentDir /\ dir = take n (rev currentDir) /\
        Fs.existsSync fs (Path.join dir manifestName) = true /\
        forall m, n < m <= length currentDir ->
          Fs.existsSync fs (Path.join (take m (rev currentDir)) manifestName) = false
  | None =>
      forall m, 0 < m <= length currentDir ->
        Fs.existsSync fs (Path.join (take m (rev currentDir)) manifestName) = false
  end.
Proof.
  induction currentDir as [|segment parent IH].
  - simpl. intros m Hm. lia.
  - cbn [findPackageJson_from].
    destruct (Fs.existsSync fs (Path.join (rev (segment :: parent)) manifestName))
      eqn:Hhere.
    + exists (length (segment :: parent)). simpl length.
      split; [lia |]. split; [| split; [assumption | intros; lia]].
      rewrite take_ge; [reflexivity |]. rewrite List.length_rev. simpl. lia.
    + assert (Hshort : forall m, m <= length parent ->
                 take m (rev (segment :: parent)) = take m (rev parent)).
      { intros m Hm. simpl rev. apply take_app_le. now rewrite List.length_rev. }
      assert (Hfull : take (S (length parent)) (rev (segment :: parent))
                      = rev (segment :: parent)).
      { apply take_ge. rewrite List.length_rev. simpl. lia. }
      destruct (findPackageJson_from fs parent) as [dir |].
      * destruct IH as (n & Hn & -> & Hex & Hnear).
        exists n. simpl length. split; [lia |].
        split; [now rewrite Hshort by lia |]. split; [assumption |].
        intros m Hm. destruct (decide (m = S (length parent))) as [-> | Hne].
        -- now rewrite Hfull.
        -- rewrite Hshort by lia. apply Hnear. lia.
      * intros m Hm. simpl length in Hm.
        destruct (decide (m = S (length parent))) as [-> | Hne].
        -- now rewrite Hfull.
        -- rewrite Hshort by lia. apply IH. lia.
Qed.

Lemma resolve_app (root : entry) (p q : path) :
  Fs.resolve root (p ++ q)
  = match Fs.resolve root p with
    | Some node => Fs.resolve node q
    | None => None
    end.
Proof.
  revert root. induction p as [|segment p IH]; intros root; simpl; [reflexivity |].
  destruct root as [| files]; [reflexivity |].
  destruct (Fs.assoc segment files); [apply IH | reflexivity].
Qed.

Lemma assoc_In (name : string) (files : list (string * entry)) (e : entry) :
  Fs.assoc name files = Some e -> In (name, e) files.
Proof.
  induction files as [|[n c] rest IH]; simpl; [discriminate |].
  destruct (String.eqb_spec n name) as [-> | _].
  - intros [= ->]. now left.
  - auto.
Qed.

Lemma distinct_assoc (name : string) (files : list (string * entry)) (e : entry) :
  distinct (map fst files) = true -> In (name, e) files ->
  Fs.assoc name files = Some e.
Proof.
  induction files as [|[n c] rest IH]; simpl; [tauto |].
  intros Hd [[= -> ->] | Hin].
  - now rewrite String.eqb_refl.
  - apply andb_true_iff in Hd as [Hfresh Hd].
    destruct (String.eqb_spec n name) as [-> | _]; [| auto].
    apply negb_true_iff in Hfresh.
    assert (existsb (String.eqb name) (map fst rest) = true); [| congruence].
    apply existsb_exists. exists name. split; [| apply String.eqb_refl].
    apply in_map_iff. now exists (name, e).
Qed.

Lemma uniqueNames_child (files : list (string * entry)) (name : string) (e : entry) :
  uniqueNames (Dir files) = true -> In (name, e) files -> uniqueNames e = true.
Proof.
  cbn [uniqueNames]. intros H Hin. apply andb_true_iff in H as [_ H].
  rewrite forallb_forall in H. exact (H _ Hin).
Qed.

(** In a tree with unique names a directory that the scan visits is found
    again by its path. *)
Lemma visits_resolve (node : entry) (rel : path) (found : list (string * entry)) :
  visits node rel found -> uniqueNames node = true ->
  Fs.resolve node rel = Some (Dir found) /\ uniqueNames (Dir found) = true.
Proof.
  induction 1 as [files | files name children rel found Hin Hname _ IH]; intros Hu.
  - auto.
  - simpl. rewrite (distinct_assoc name files (Dir children)); [| | assumption].
    + apply IH. eapply uniqueNames_child; eassumption.
    + cbn [uniqueNames] in Hu. now apply andb_true_iff in Hu as [Hu _].
Qed.

Lemma uniqueNames_resolve (root : entry) (p : path) (node : entry) :
  uniqueNames root = true -> Fs.resolve root p = Some node -> uniqueNames node = true.
Proof.
  revert root. induction p as [|segment p IH]; intros root Hu; simpl.
  - now intros [= <-].
  - destruct root as [| files]; [discriminate |].
    destruct (Fs.assoc segment files) as [child |] eqn:Hchild; [| discriminate].
    apply IH. eapply uniqueNames_child; [eassumption |].
    eapply assoc_In; eassumption.
Qed.

(** Every directory in the registry holds a manifest on disk. *)
Lemma registered_directory_has_manifest (cwd : path) (packageMap : registry)
    (key : path) (name : option string) :
  uniqueNames fs = true ->
  findInternalPackageNames fs cwd = Ok packageMap ->
  packageMap !! key = Some name ->
  Fs.existsSync fs (Path.join key manifestName) = true.
Proof.
  unfold findInternalPackageNames. intros Hu.
  destruct (Fs.resolve fs cwd) as [node |] eqn:Hcwd; [| discriminate].
  intros Hrun Hkey.
  destruct (traverse_sound node _ _ _ _ _ Hrun Hkey)
    as [H | (rel & found & Hv & -> & Hm)]; [now rewrite lookup_empty in H |].
  destruct (visits_resolve _ _ _ Hv (uniqueNames_resolve _ _ _ Hu Hcwd))
    as [Hrel Hfound].
  unfold Fs.existsSync, Path.join.
  rewrite !resolve_app, Hcwd, Hrel. simpl.
  rewrite (distinct_assoc _ _ _ (proj1 (proj1 (andb_true_iff _ _) Hfound)) Hm).
  reflexivity.
Qed.

(** C7, as the code has it: [findPackageJson] returns the nearest ancestor
    directory below the root of the file system that holds an entry named
    [package.json] on disk, registered or not, and [null] exactly when no
    such ancestor holds one; in that case none of these ancestors is a key
    of the registry either. The ancestors of a file are the non-empty
    prefixes [take n directory] of its directory. *)
Theorem findPackageJson_nearest_manifest_on_disk (file : path) :
  let directory := Path.dirname file in
  match findPackageJson fs file with
  | Some dir =>
      exists n, 0 < n <= length directory /\ dir = take n directory /\
        Fs.existsSync fs (Path.join dir manifestName) = true /\
        forall m, n < m <= length directory ->
          Fs.existsSync fs (Path.join (take m directory) manifestName) = false
  | None =>
      (forall m, 0 < m <= length directory ->
         Fs.existsSync fs (Path.join (take m directory) manifestName) = false) /\
      (forall cwd packageMap,
         uniqueNames fs = true ->
         findInternalPackageNames fs cwd = Ok packageMap ->
         forall m, 0 < m <= length directory ->
           packageMap !! take m directory = None)
  end.
Proof.
  intros directory. unfold findPackageJson. fold directory.
  pose proof (findPackageJson_from_spec (rev directory)) as H.
  rewrite List.length_rev, rev_involutive in H.
  destruct (findPackageJson_from fs (rev directory)) as [dir |]; [exact H |].
  split; [exact H |].
  intros cwd packageMap Hu Hbuilt m Hm.
  destruct (packageMap !! take m directory) as [name |] eqn:Hkey; [| reflexivity].
  pose proof (registered_directory_has_manifest _ _ _ _ Hu Hbuilt Hkey) as Hex.
  rewrite (H m Hm) in Hex. discriminate.
Qed.

End Lookup.

Lemma findPackageJson_nearest_manifest_on_disk_witness :
  exists n, 0 < n <= 2 /\
    ["repo"; "core"] = take n ["repo"; "core"] /\
    Fs.existsSync sampleFs ["repo"; "core"; "package.json"] = true.
Proof.
  destruct (findPackageJson_nearest_manifest_on_disk sampleFs coreIndex)
    as (n & Hn & Hdir & Hex & _).
  exists n. auto.
Defined.

(** C7 as written fails: for a file of an installed dependency the nearest
    ancestor that is a key of the registry is [/repo], but the directory
    returned is the dependency's own, which is not a key; the current
    package name is then [undefined]. *)
Lemma findPackageJson_returns_unregistered_directory :
  findInternalPackageNames sampleFs sampleCwd = Ok sampleRegistry /\
  findPackageJson sampleFs ["repo"; "node_modules"; "dep"; "index.js"]
  = Some ["repo"; "node_modules"; "dep"] /\
  sampleRegistry !! ["repo"; "node_modules"; "dep"] = None /\
  sampleRegistry !! ["repo"; "node_modules"] = None /\
  sampleRegistry !! ["repo"] = Some (Some "root") /\
  packageMap_get sampleRegistry
    (findPackageJson sampleFs ["repo"; "node_modules"; "dep"; "index.js"]) = None.
Proof. repeat split; vm_compute; reflexivity. Qed.

(** * Further properties of the rule *)

Section Outcomes.
Import Js JsFacts.

Variable rootPackageName : string.
Variable fs : entry.
Variable cwd : path.

Local Abbreviation prefix := (namespacePrefix rootPackageName).
Local Abbreviation short := (getShortPackageName rootPackageName).
Local Abbreviation framed message := (siren +:+ " " +:+ message +:+ " " +:+ siren).

Lemma ImportDeclaration_relative (v : visitor) (context : reports)
    (importPath : string) :
  includes rootPackageName importPath = true ->
  isRelativeImport importPath = true ->
  ImportDeclaration rootPackageName fs cwd v context importPath
  = Ok (handleRelativeImport fs cwd context (filename v) (currentPackageName v)
          importPath).
Proof.
  intros Hinternal Hrelative. unfold ImportDeclaration.
  now rewrite Hinternal, Hrelative.
Qed.

Lemma restrictLoop_cases (context : reports) (cur imp : string)
    (restricted : list string) :
  restrictLoop context cur imp restricted = context \/
  restrictLoop context cur imp restricted
  = context ++ [framed (restrictedFrom cur imp)].
Proof.
  destruct (in_dec String.string_dec imp restricted) as [H | H].
  - right. now apply restrictLoop_hit.
  - left. now apply restrictLoop_miss.
Qed.

Lemma report_is_new (context : reports) (message : string) :
  context ++ [message] <> context.
Proof.
  intros E. apply (f_equal (@length string)) in E.
  rewrite length_app in E. simpl in E. lia.
Qed.

(** X1: a relative import that contains the root package name and resolves
    to the package of the file itself is not reported, whatever the
    configuration is, even one without [allow] or [restrict]. *)
Theorem relative_import_inside_package_passes (file : path) (context : reports)
    (current : string) (allow restrict : option (list string)) (importPath : string) :
  includes rootPackageName importPath = true ->
  isRelativeImport importPath = true ->
  getPackageNameFromPath fs cwd importPath file = Some current ->
  ImportDeclaration rootPackageName fs cwd
    (Visitor file (Some current) allow restrict) context importPath
  = Ok context.
Proof.
  intros Hinternal Hrelative Hsame.
  rewrite ImportDeclaration_relative by assumption.
  unfold handleRelativeImport. simpl. rewrite Hsame. simpl.
  now rewrite String.eqb_refl.
Qed.

(** X2: an import whose text does not contain the root package name is
    never reported and never makes the rule fail, for every visitor: also
    when the current package name is [undefined] or the policy lacks its
    lists. *)
Theorem import_without_root_name_ignored (v : visitor) (context : reports)
    (importPath : string) :
  includes rootPackageName importPath = false ->
  ImportDeclaration rootPackageName fs cwd v context importPath = Ok context.
Proof.
  intros H. unfold ImportDeclaration. now rewrite H.
Qed.

(** X3: one import adds at most one report, framed on both sides by the
    sign of [reportLayerBreakingImport], and leaves the reports made before
    it as they are. *)
Theorem ImportDeclaration_at_most_one_report (v : visitor) (context result : reports)
    (importPath : string) :
  ImportDeclaration rootPackageName fs cwd v context importPath = Ok result ->
  result = context \/ exists message, result = context ++ [framed message].
Proof.
  unfold ImportDeclaration.
  destruct (includes rootPackageName importPath); simpl; [| intros [= <-]; auto].
  destruct (isRelativeImport importPath).
  - unfold handleRelativeImport, reportLayerBreakingImport.
    destruct (strictNotEqual _ _); intros [= <-]; eauto.
  - unfold handleAbsoluteImport.
    destruct (currentPackageName v) as [current |]; simpl; [| discriminate].
    destruct (visitor_allow v) as [allow |]; [| discriminate].
    destruct (existsb _ allow); simpl.
    + destruct (visitor_restrict v) as [restricted |]; [| discriminate].
      intros [= <-].
      destruct (restrictLoop_cases context (short current) (short importPath)
                  restricted) as [-> | ->]; eauto.
    + unfold reportLayerBreakingImport. intros [= <-]. eauto.
Qed.

(** X5: a policy without [allow] makes every absolute internal import fail
    with a [TypeError]; a policy without [restrict] makes it fail whenever
    the import passes the allow-list. *)
Theorem omitted_policy_list_throws (file : path) (context : reports)
    (current : string) (importPath : string) :
  includes rootPackageName importPath = true ->
  isRelativeImport importPath = false ->
  (forall restrict,
     ImportDeclaration rootPackageName fs cwd
       (Visitor file (Some current) None restrict) context importPath
     = Throw TypeError) /\
  (forall allow,
     In "*" allow \/ In (short importPath) allow ->
     ImportDeclaration rootPackageName fs cwd
       (Visitor file (Some current) (Some allow) None) context importPath
     = Throw TypeError).
Proof.
  intros Hinternal Habsolute. split.
  - intros restrict. now rewrite ImportDeclaration_absolute.
  - intros allow Hallowed. rewrite ImportDeclaration_absolute by assumption.
    unfold handleAbsoluteImport. simpl.
    now rewrite (proj2 (allowed_iff _ _) Hallowed).
Qed.

(** X6: the outcome of an absolute import depends only on which texts
    occur in [allow] and in [restrict], not on their order or on
    repetitions. *)
Theorem handleAbsoluteImport_depends_on_membership (context : reports)
    (current : option string) (allow allow' restricted restricted' : list string)
    (importPath : string) :
  (forall entry, In entry allow <-> In entry allow') ->
  (forall entry, In entry restricted <-> In entry restricted') ->
  handleAbsoluteImport rootPackageName context current (Some allow)
    (Some restricted) importPath
  = handleAbsoluteImport rootPackageName context current (Some allow')
      (Some restricted') importPath.
Proof.
  intros Hallow Hrestrict. unfold handleAbsoluteImport.
  destruct current as [current |]; simpl; [| reflexivity].
  assert (Hsame : existsb (fun packageName =>
                             String.eqb packageName "*"
                             || String.eqb packageName (short importPath)) allow
                  = existsb (fun packageName =>
                               String.eqb packageName "*"
                               || String.eqb packageName (short importPath)) allow').
  { apply eq_true_iff_eq. rewrite !allowed_iff, !Hallow. reflexivity. }
  rewrite <- Hsame. destruct (existsb _ allow); simpl; [| reflexivity].
  f_equal.
  destruct (in_dec String.string_dec (short importPath) restricted) as [H | H].
  - rewrite !restrictLoop_hit; [reflexivity | now apply Hrestrict | assumption].
  - rewrite !restrictLoop_miss; [reflexivity | | assumption].
    intros H'. now apply H, Hrestrict.
Qed.

(** X7: adding entries to [allow] never turns an import that passes into a
    reported or failing one. *)
Theorem larger_allow_list_keeps_pass (file : path) (context : reports)
    (current : option string) (allow allow' : list string)
    (restrict : option (list string)) (importPath : string) :
  (forall entry, In entry allow -> In entry allow') ->
  ImportDeclaration rootPackageName fs cwd
    (Visitor file current (Some allow) restrict) context importPath = Ok context ->
  ImportDeclaration rootPackageName fs cwd
    (Visitor file current (Some allow') restrict) context importPath = Ok context.
Proof.
  intros Hincl. unfold ImportDeclaration.
  destruct (includes rootPackageName importPath); simpl; [| auto].
  destruct (isRelativeImport importPath); [auto |].
  unfold handleAbsoluteImport.
  destruct current as [current |]; simpl; [| discriminate].
  destruct (existsb _ allow) eqn:Hallowed; simpl.
  - apply allowed_iff in Hallowed.
    assert (Hallowed' : In "*" allow' \/ In (short importPath) allow')
      by (destruct Hallowed; auto).
    now rewrite (proj2 (allowed_iff _ _) Hallowed').
  - unfold reportLayerBreakingImport. intros [= E]. now apply report_is_new in E.
Qed.

(** X8: whether an import is internal is decided by the bare root package
    name occurring anywhere in it. A path that contains the name but not
    the text [@<root>/] is therefore checked like an internal one, with its
    whole text as the short name. *)
Theorem name_without_prefix_checked_whole (file : path) (context : reports)
    (current : string) (allow : list string) (restrict : option (list string))
    (importPath : string) :
  includes rootPackageName importPath = true ->
  includes prefix importPath = false ->
  isRelativeImport importPath = false ->
  ~ In "*" allow ->
  ~ In importPath allow ->
  ImportDeclaration rootPackageName fs cwd
    (Visitor file (Some current) (Some allow) restrict) context importPath
  = Ok (context ++ [framed (notInAllowList importPath (short current))]).
Proof.
  intros Hinternal Hprefix Habsolute Hwild Hexact.
  rewrite ImportDeclaration_absolute by assumption.
  pose proof (short_absent rootPackageName importPath Hprefix) as Hshort.
  destruct (handleAbsoluteImport_cases rootPackageName context current allow
              restrict importPath) as [Hcase _].
  rewrite Hshort in Hcase. now apply Hcase.
Qed.

(** X9: a package has no exemption for itself: its own absolute name is
    reported like any other when its short name is not in its allow-list. *)
Theorem own_name_needs_allow_entry (file : path) (context : reports)
    (name : string) (allow : list string) (restrict : option (list string)) :
  isRelativeImport (prefix +:+ name) = false ->
  ~ In "*" allow ->
  ~ In name allow ->
  ImportDeclaration rootPackageName fs cwd
    (Visitor file (Some (prefix +:+ name)) (Some allow) restrict) context
    (prefix +:+ name)
  = Ok (context ++ [framed (notInAllowList name name)]).
Proof.
  intros Habsolute Hwild Hname.
  rewrite ImportDeclaration_absolute;
    [| apply includes_root_in_prefixed | assumption].
  destruct (handleAbsoluteImport_cases rootPackageName context (prefix +:+ name)
              allow restrict (prefix +:+ name)) as [Hcase _].
  rewrite !short_leading in Hcase. now apply Hcase.
Qed.

End Outcomes.

Lemma relative_import_inside_package_passes_witness :
  ImportDeclaration "root" sampleFs sampleCwd
    (Visitor coreIndex (Some "@root/core") None None) [] "@root/../core/util"
  = Ok [].
Proof.
  apply (relative_import_inside_package_passes "root" sampleFs sampleCwd coreIndex
           [] "@root/core" None None "@root/../core/util");
    vm_compute; reflexivity.
Defined.

Lemma import_without_root_name_ignored_witness :
  ImportDeclaration "root" sampleFs sampleCwd (Visitor coreIndex None None None)
    [] "../lodash/fp"
  = Ok [].
Proof.
  apply (import_without_root_name_ignored "root" sampleFs sampleCwd
           (Visitor coreIndex None None None) [] "../lodash/fp").
  reflexivity.
Defined.

Lemma ImportDeclaration_at_most_one_report_witness :
  let earlier := [siren +:+ " " +:+ restrictedFrom "core" "data" +:+ " " +:+ siren] in
  let result := earlier ++ [siren +:+ " " +:+ notInAllowList "ui" "core"
                              +:+ " " +:+ siren] in
  result = earlier \/
  exists message, result = earlier ++ [siren +:+ " " +:+ message +:+ " " +:+ siren].
Proof.
  intros earlier result.
  apply (ImportDeclaration_at_most_one_report "root" sampleFs sampleCwd
           (Visitor coreIndex (Some "@root/core") (Some ["data"]) (Some []))
           earlier result "@root/ui").
  reflexivity.
Defined.

Lemma omitted_policy_list_throws_witness :
  ImportDeclaration "root" sampleFs sampleCwd
    (Visitor coreIndex (Some "@root/core") None (Some [])) [] "@root/ui"
  = Throw TypeError /\
  ImportDeclaration "root" sampleFs sampleCwd
    (Visitor coreIndex (Some "@root/core") (Some ["ui"]) None) [] "@root/ui"
  = Throw TypeError.
Proof.
  destruct (omitted_policy_list_throws "root" sampleFs sampleCwd coreIndex []
              "@root/core" "@root/ui" eq_refl eq_refl) as [Hallow Hrestrict].
  split; [apply Hallow |]. apply Hrestrict. right. left. reflexivity.
Defined.

Lemma handleAbsoluteImport_depends_on_membership_witness :
  handleAbsoluteImport "root" [] (Some "@root/core") (Some ["ui"; "data"])
    (Some ["auth"; "ui"]) "@root/ui"
  = handleAbsoluteImport "root" [] (Some "@root/core") (Some ["data"; "ui"; "data"])
      (Some ["ui"; "auth"; "ui"]) "@root/ui".
Proof.
  apply (handleAbsoluteImport_depends_on_membership "root" [] (Some "@root/core")
           ["ui"; "data"] ["data"; "ui"; "data"] ["auth"; "ui"] ["ui"; "auth"; "ui"]
           "@root/ui");
    intros entry; cbv [In]; tauto.
Defined.

Lemma larger_allow_list_keeps_pass_witness :
  ImportDeclaration "root" sampleFs sampleCwd
    (Visitor coreIndex (Some "@root/core") (Some ["data"; "ui"]) (Some []))
    [] "@root/ui"
  = Ok [].
Proof.
  apply (larger_allow_list_keeps_pass "root" sampleFs sampleCwd coreIndex []
           (Some "@root/core") ["ui"] ["data"; "ui"] (Some []) "@root/ui").
  - intros entry. cbv [In]. tauto.
  - reflexivity.
Defined.

Lemma name_without_prefix_checked_whole_witness :
  ImportDeclaration "app" sampleFs sampleCwd
    (Visitor coreIndex (Some "@app/core") (Some ["ui"]) (Some []))
    [] "react-app-polyfill"
  = Ok [siren +:+ " " +:+ notInAllowList "react-app-polyfill" "core"
          +:+ " " +:+ siren].
Proof.
  apply (name_without_prefix_checked_whole "app" sampleFs sampleCwd coreIndex []
           "@app/core" ["ui"] (Some []) "react-app-polyfill");
    [reflexivity | reflexivity | reflexivity | |]; cbv [In]; intuition discriminate.
Defined.

Lemma own_name_needs_allow_entry_witness :
  ImportDeclaration "root" sampleFs sampleCwd
    (Visitor coreIndex (Some "@root/core") (Some ["ui"]) (Some []))
    [] "@root/core"
  = Ok [siren +:+ " " +:+ notInAllowList "core" "core" +:+ " " +:+ siren].
Proof.
  apply (own_name_needs_allow_entry "root" sampleFs sampleCwd coreIndex [] "core"
           ["ui"] (Some []));
    [reflexivity | |]; cbv [In]; intuition discriminate.
Defined.

(** ** Creating the rule and linting a file *)

Section Creation.

Variable rootPackageName : string.
Variable fs : entry.
Variable cwd : path.
Variable packageMap : registry.

Local Abbreviation short := (getShortPackageName rootPackageName).

(** The policy found for a named package is an entry of the configuration
    or the default one. *)
Lemma findConfigByPackageName_cases (options : list policy) (current : string) :
  exists config,
    findConfigByPackageName rootPackageName options (Some current) = Ok config /\
    (In config options \/
     config = {| target := short current; allow := Some ["*"];
                 restrict := Some [] |}).
Proof.
  unfold findConfigByPackageName. simpl.
  destruct (List.find _ options) as [found |] eqn:Hfind; eexists;
    (split; [reflexivity |]); [| now right].
  left. now apply find_some in Hfind as [Hin _].
Qed.

(** X10: with several entries for the same package the first one is the
    policy used; later ones are never looked at. *)
Theorem first_matching_policy_wins (before after : list policy) (p : policy)
    (current : string) :
  target p = short current ->
  (forall q, In q before -> target q <> short current) ->
  findConfigByPackageName rootPackageName (before ++ p :: after) (Some current)
  = Ok p.
Proof.
  intros Htarget Hbefore. unfold findConfigByPackageName. simpl.
  induction before as [|q before IH]; simpl.
  - now rewrite Htarget, String.eqb_refl.
  - destruct (String.eqb_spec (short current) (target q)) as [E | _].
    + exfalso. apply (Hbefore q); [now left | now symmetry].
    + apply IH. intros q' Hq'. apply Hbefore. now right.
Qed.

(** X11: [create] succeeds exactly for the files whose nearest manifest
    directory is a key of the registry bound to a name; the visitor then
    carries that name, whatever the configuration is. *)
Theorem create_succeeds_iff_named_package (options : list policy) (file : path) :
  (exists v, create rootPackageName fs packageMap options file = Ok v) <->
  (exists name, packageMap_get packageMap (findPackageJson fs file) = Some name).
Proof.
  unfold create.
  destruct (packageMap_get packageMap (findPackageJson fs file)) as [name |].
  - destruct (findConfigByPackageName_cases options name) as (config & -> & _).
    simpl. split; eauto.
  - simpl. split; intros [x H]; discriminate.
Qed.

Lemma ImportDeclaration_complete_policy (file : path) (current : string)
    (allow restricted : list string) (context : reports) (importPath : string) :
  ImportDeclaration rootPackageName fs cwd
    (Visitor file (Some current) (Some allow) (Some restricted)) context importPath
  = Ok context \/
  exists message,
    ImportDeclaration rootPackageName fs cwd
      (Visitor file (Some current) (Some allow) (Some restricted)) context importPath
    = Ok (context ++ [message]).
Proof.
  unfold ImportDeclaration.
  destruct (Js.includes rootPackageName importPath); simpl; [| auto].
  destruct (isRelativeImport importPath).
  - unfold handleRelativeImport, reportLayerBreakingImport.
    destruct (strictNotEqual _ _); eauto.
  - unfold handleAbsoluteImport. simpl.
    destruct (existsb _ allow); simpl.
    + destruct (in_dec String.string_dec (short importPath) restricted) as [H | H].
      * rewrite restrictLoop_hit by assumption. eauto.
      * rewrite restrictLoop_miss by assumption. auto.
    + unfold reportLayerBreakingImport. eauto.
Qed.

Lemma visitImports_complete_policy (file : path) (current : string)
    (allow restricted : list string) (imports : list string) :
  forall context,
    exists added,
      visitImports rootPackageName fs cwd
        (Visitor file (Some current) (Some allow) (Some restricted)) context imports
      = Ok (context ++ added) /\
      length added <= length imports.
Proof.
  induction imports as [|importPath rest IH]; intros context; simpl.
  - exists []. rewrite app_nil_r. auto.
  - destruct (ImportDeclaration_complete_policy file current allow restricted
                context importPath) as [-> | [message ->]]; simpl.
    + destruct (IH context) as (added & -> & Hlen). exists added. split; [auto | lia].
    + destruct (IH (context ++ [message])) as (added & -> & Hlen).
      exists (message :: added). rewrite <- app_assoc. simpl. split; [auto | lia].
Qed.

(** X4: when every entry of the configuration has both lists, linting a
    file of a named registered package never fails, and it reports at most
    one message per import. *)
Theorem lint_succeeds_with_complete_policies (options : list policy) (file : path)
    (current : string) (imports : list string) :
  packageMap_get packageMap (findPackageJson fs file) = Some current ->
  (forall p, In p options -> allow p <> None /\ restrict p <> None) ->
  exists messages,
    lint rootPackageName fs cwd packageMap options file imports = Ok messages /\
    length messages <= length imports.
Proof.
  intros Hfile Hcomplete. unfold lint, create. rewrite Hfile.
  destruct (findConfigByPackageName_cases options current)
    as (config & -> & Hconfig). simpl.
  assert (Hlists : exists allowed restricted,
             allow config = Some allowed /\ restrict config = Some restricted).
  { destruct Hconfig as [Hin | ->]; [| simpl; eauto].
    destruct (Hcomplete config Hin) as [Ha Hr].
    destruct (allow config), (restrict config); try contradiction; eauto. }
  destruct Hlists as (allowed & restricted & -> & ->).
  destruct (visitImports_complete_policy file current allowed restricted imports [])
    as (added & Hrun & Hlen).
  exists added. auto.
Qed.

End Creation.

Lemma first_matching_policy_wins_witness :
  findConfigByPackageName "root"
    [Policy "ui" (Some []) (Some []);
     Policy "core" (Some ["data"]) (Some []);
     Policy "core" (Some ["*"]) (Some [])]
    (Some "@root/core")
  = Ok (Policy "core" (Some ["data"]) (Some [])).
Proof.
  apply (first_matching_policy_wins "root" [Policy "ui" (Some []) (Some [])]
           [Policy "core" (Some ["*"]) (Some [])]
           (Policy "core" (Some ["data"]) (Some [])) "@root/core").
  - reflexivity.
  - intros q [<- | []]. discriminate.
Defined.

Lemma create_succeeds_iff_named_package_witness :
  exists v, create "root" sampleFs sampleRegistry [] coreIndex = Ok v.
Proof.
  apply (proj2 (create_succeeds_iff_named_package "root" sampleFs sampleRegistry
                  [] coreIndex)).
  exists "@root/core". vm_compute. reflexivity.
Defined.

Lemma lint_succeeds_with_complete_policies_witness :
  exists messages,
    lint "root" sampleFs sampleCwd sampleRegistry
      [Policy "core" (Some ["data"]) (Some ["ui"])] coreIndex
      ["@root/ui"; "lodash"; "@root/../ui/button"]
    = Ok messages /\
    length messages <= 3.
Proof.
  apply (lint_succeeds_with_complete_policies "root" sampleFs sampleCwd
           sampleRegistry [Policy "core" (Some ["data"]) (Some ["ui"])] coreIndex
           "@root/core").
  - vm_compute. reflexivity.
  - intros p [<- | []]. split; discriminate.
Defined.

(** ** Resolving the target of a relative import *)

Section Target.

Variable rootPackageName : string.
Variable fs : entry.
Variable cwd : path.

Lemma getPackageNameFromPath_Some (importPath : string) (file : path)
    (name : string) :
  getPackageNameFromPath fs cwd importPath file = Some name ->
  exists segment,
    Fs.resolve fs (cwd ++ [segment; "package.json"])
    = Some (File (Manifest (Some name))).
Proof.
  unfold getPackageNameFromPath.
  destruct (List.find _ _) as [segment |]; [| discriminate].
  unfold Fs.readManifestName, Path.join. rewrite <- app_assoc. simpl.
  destruct (Fs.resolve fs (cwd ++ [segment; "package.json"]))
    as [[[| [declared |]] | ] |] eqn:Hresolve; try discriminate.
  destruct (String.eqb declared EmptyString); [discriminate |].
  intros [= <-]. eauto.
Qed.

Lemma resolve_in_subdirectory (root : path) (segment name : string) (e : entry) :
  Fs.resolve fs (root ++ [segment; name]) = Some e ->
  exists files children,
    Fs.resolve fs root = Some (Dir files) /\
    In (segment, Dir children) files /\ In (name, e) children.
Proof.
  rewrite resolve_app.
  destruct (Fs.resolve fs root) as [[| files] |]; simpl; try discriminate.
  destruct (Fs.assoc segment files) as [[| children] |] eqn:Hsegment;
    try discriminate.
  destruct (Fs.assoc name children) as [child |] eqn:Hname; [| discriminate].
  intros [= <-]. exists files, children. eauto using assoc_In.
Qed.

(** X12: the target of a relative import is only ever looked up in a
    directory directly under the working directory, whatever file the
    import stands in: a name that is returned is the non-empty name declared
    by the manifest of such a directory. *)
Theorem target_resolved_directly_under_cwd (importPath : string) (file : path)
    (name : string) :
  getPackageNameFromPath fs cwd importPath file = Some name ->
  name <> EmptyString /\
  exists segment,
    segment <> EmptyString /\ segment <> "." /\ segment <> ".." /\
    Fs.resolve fs (cwd ++ [segment; "package.json"])
    = Some (File (Manifest (Some name))).
Proof.
  unfold getPackageNameFromPath.
  destruct (List.find _ _) as [segment |] eqn:Hfind; [| discriminate].
  apply find_some in Hfind as [_ Hreal].
  apply andb_true_iff in Hreal as [Hreal Hempty].
  apply andb_true_iff in Hreal as [Hup Hdot].
  apply negb_true_iff, String.eqb_neq in Hup, Hdot, Hempty.
  unfold Fs.readManifestName, Path.join. rewrite <- app_assoc. simpl.
  destruct (Fs.resolve fs (cwd ++ [segment; "package.json"]))
    as [[[| [declared |]] | ] |] eqn:Hresolve; try discriminate.
  destruct (String.eqb_spec declared EmptyString) as [| Hne]; [discriminate |].
  intros [= <-]. split; [assumption |]. exists segment. auto.
Qed.

(** X13: for a package whose name no manifest directly under the working
    directory declares (a package that lies deeper, or the root package
    itself), every relative import that contains the root package name is
    reported, also one that stays inside the package. *)
Theorem deeper_package_relative_imports_all_reported (file : path)
    (context : reports) (current : string) (allow restrict : option (list string))
    (importPath : string) :
  (forall segment,
     Fs.resolve fs (cwd ++ [segment; "package.json"])
     <> Some (File (Manifest (Some current)))) ->
  Js.includes rootPackageName importPath = true ->
  isRelativeImport importPath = true ->
  ImportDeclaration rootPackageName fs cwd
    (Visitor file (Some current) allow restrict) context importPath
  = Ok (context ++ [siren +:+ " " +:+ "Layer-breaking relative import detected"
                      +:+ " " +:+ siren]).
Proof.
  intros Hnone Hinternal Hrelative.
  rewrite ImportDeclaration_relative by assumption.
  unfold handleRelativeImport. simpl.
  destruct (getPackageNameFromPath fs cwd importPath file) as [name |] eqn:Htarget;
    simpl; [| reflexivity].
  destruct (String.eqb_spec name current) as [-> | _]; [| reflexivity].
  apply getPackageNameFromPath_Some in Htarget as (segment & H).
  now apply Hnone in H.
Qed.

(** X14: the check for a relative import is a search for two dots anywhere
    in the text: every text with two dots in a row counts as relative, and
    a leading [./] alone does not make an import relative. *)
Theorem isRelativeImport_is_substring_search (a b : string) :
  isRelativeImport (a +:+ ".." +:+ b) = true /\
  isRelativeImport ("./" +:+ b) = isRelativeImport b.
Proof.
  split.
  - apply JsFacts.includes_append.
  - reflexivity.
Qed.

End Target.

Lemma target_resolved_directly_under_cwd_witness :
  exists segment,
    segment <> EmptyString /\ segment <> "." /\ segment <> ".." /\
    Fs.resolve sampleFs (sampleCwd ++ [segment; "package.json"])
    = Some (File (Manifest (Some "@root/ui"))).
Proof.
  apply (target_resolved_directly_under_cwd sampleFs sampleCwd
           "../../../ui/button" nestedButton "@root/ui").
  vm_compute. reflexivity.
Defined.

Lemma deeper_package_relative_imports_all_reported_witness :
  ImportDeclaration "root" nestedFs sampleCwd
    (Visitor nestedButton (Some "@root/ui") (Some ["*"]) (Some [])) [] "../src/root.js"
  = Ok [siren +:+ " " +:+ "Layer-breaking relative import detected"
          +:+ " " +:+ siren].
Proof.
  apply (deeper_package_relative_imports_all_reported "root" nestedFs sampleCwd
           nestedButton [] "@root/ui" (Some ["*"]) (Some []) "../src/root.js");
    [| reflexivity | reflexivity].
  intros segment H.
  apply resolve_in_subdirectory in H as (files & children & [= <-] & Hin & Hm).
  destruct Hin as [[=] | [[= _ <-] | []]].
  destruct Hm as [[=] | []].
Defined.

(** ** What the registry holds *)

Section Registry.

Local Abbreviation manifestName := "package.json".

Lemma traverse_for_of_complete (dir : path) (files : list (string * entry)) :
  Forall (fun child =>
            forall dir before after,
              traverse dir (snd child) before = Ok after ->
              grows (snd child) dir before after)
         files ->
  forall before after,
    traverse_for_of dir files before = Ok after ->
    (forall key, is_Some (before !! key) -> is_Some (after !! key)) /\
    (forall name, In (manifestName, File (Manifest name)) files ->
                  is_Some (after !! dir)) /\
    (forall file children key name,
        In (file, Dir children) files -> file <> "node_modules" ->
        scanned (Dir children) (Path.join dir file) key name ->
        is_Some (after !! key)).
Proof.
  induction 1 as [|[file child] rest Hchild _ IH]; intros before after.
  - simpl. intros [= <-]. split; [auto |]. split.
    + intros name [].
    + intros file children key name [].
  - cbn [traverse_for_of]. simpl in Hchild.
    destruct child as [content | children].
    + destruct (String.eqb_spec file manifestName) as [-> | Hfile].
      * destruct content as [| packageName]; [discriminate |].
        intros Hrun. destruct (IH _ _ Hrun) as (Hkeep & Hhere & Hbelow).
        assert (Hdir : is_Some (after !! dir))
          by (apply Hkeep; rewrite lookup_insert_eq; eauto).
        split; [| split].
        -- intros key Hkey. apply Hkeep.
           destruct (decide (dir = key)) as [-> | Hne].
           ++ rewrite lookup_insert_eq. eauto.
           ++ now rewrite lookup_insert_ne.
        -- auto.
        -- intros f c key name [[=] | Hin]. eauto.
      * intros Hrun. destruct (IH _ _ Hrun) as (Hkeep & Hhere & Hbelow).
        split; [assumption |]. split.
        -- intros name [[= E _] | Hin]; [congruence | eauto].
        -- intros f c key name [[=] | Hin]. eauto.
    + destruct (String.eqb_spec file "node_modules") as [-> | Hname]; cbn [negb].
      * intros Hrun. destruct (IH _ _ Hrun) as (Hkeep & Hhere & Hbelow).
        split; [assumption |]. split.
        -- intros name [[=] | Hin]. eauto.
        -- intros f c key name [[= <- <-] | Hin] Hf; [congruence | eauto].
      * destruct (traverse (Path.join dir file) (Dir children) before)
          as [inner |] eqn:Hinner; cbn [bind]; [| discriminate].
        intros Hrun. destruct (IH _ _ Hrun) as (Hkeep & Hhere & Hbelow).
        destruct (Hchild _ _ _ Hinner) as [Hkeep' Hscan'].
        split; [auto |]. split.
        -- intros name [[=] | Hin]. eauto.
        -- intros f c key name [[= <- <-] | Hin]; [| eauto].
           intros _ Hscanned. apply Hkeep. eauto.
Qed.

Lemma traverse_complete (node : entry) :
  forall dir before after,
    traverse dir node before = Ok after -> grows node dir before after.
Proof.
  induction node as [content | files IH] using entry_nested_ind;
    intros dir before after; [discriminate |].
  rewrite traverse_Dir. intros Hrun.
  destruct (traverse_for_of_complete dir files IH _ _ Hrun)
    as (Hkeep & Hhere & Hbelow).
  split; [assumption |].
  intros key name (rel & found & Hv & -> & Hm).
  inversion Hv as [files' | files' file children rel' found' Hin Hname Hv']; subst.
  - rewrite app_nil_r. eauto.
  - apply (Hbelow file children _ name Hin Hname).
    exists rel', found. split; [assumption |]. split; [| assumption].
    unfold Path.join. now rewrite <- app_assoc.
Qed.

(** With unique names a scanned directory has one manifest. *)
Lemma scanned_functional (node : entry) (dir key : path) (name name' : option string) :
  uniqueNames node = true ->
  scanned node dir key name -> scanned node dir key name' -> name = name'.
Proof.
  intros Hu (rel & found & Hv & -> & Hm) (rel' & found' & Hv' & E & Hm').
  apply app_inv_head in E as <-.
  destruct (visits_resolve _ _ _ Hv Hu) as [Hrel Hfound].
  destruct (visits_resolve _ _ _ Hv' Hu) as [Hrel' _].
  rewrite Hrel in Hrel'. injection Hrel' as <-.
  cbn [uniqueNames] in Hfound. apply andb_true_iff in Hfound as [Hd _].
  pose proof (distinct_assoc _ _ _ Hd Hm) as H1.
  pose proof (distinct_assoc _ _ _ Hd Hm') as H2.
  congruence.
Qed.

(** A directory that the scan visits and whose manifest loads is bound to
    the name the manifest declares. *)
Lemma scanned_directory_registered (fs : entry) (cwd : path) (node : entry)
    (packageMap : registry) (key : path) (name : option string) :
  uniqueNames fs = true ->
  Fs.resolve fs cwd = Some node ->
  findInternalPackageNames fs cwd = Ok packageMap ->
  scanned node cwd key name ->
  packageMap !! key = Some name.
Proof.
  intros Hu Hcwd. unfold findInternalPackageNames. rewrite Hcwd.
  intros Hrun Hscanned.
  destruct (traverse_complete node _ _ _ Hrun) as [_ Hall].
  destruct (Hall key name Hscanned) as [name' Hkey].
  destruct (traverse_sound node _ _ _ _ _ Hrun Hkey) as [H | H];
    [now rewrite lookup_empty in H |].
  rewrite Hkey. f_equal.
  eapply scanned_functional; [| exact H | exact Hscanned].
  eapply uniqueNames_resolve; eassumption.
Qed.

(** X15: in a file system where no directory lists a name twice, the
    registry binds exactly the directories that the scan visits and that
    hold a manifest file which loads, each to the name its manifest
    declares ([undefined] when it declares none). *)
Theorem registry_holds_exactly_scanned_manifests (fs : entry) (cwd : path)
    (node : entry) (packageMap : registry) (key : path) (name : option string) :
  uniqueNames fs = true ->
  Fs.resolve fs cwd = Some node ->
  findInternalPackageNames fs cwd = Ok packageMap ->
  (packageMap !! key = Some name <->
   exists rel found,
     visits node rel found /\ key = cwd ++ rel /\
     In (manifestName, File (Manifest name)) found).
Proof.
  intros Hu Hcwd Hbuilt. split.
  - intros Hkey. unfold findInternalPackageNames in Hbuilt. rewrite Hcwd in Hbuilt.
    destruct (traverse_sound node _ _ _ _ _ Hbuilt Hkey) as [H | H]; [| exact H].
    now rewrite lookup_empty in H.
  - intros Hscanned.
    now apply (scanned_directory_registered fs cwd node).
Qed.

Lemma resolve_visits (rel : path) :
  forall node found,
    Fs.resolve node rel = Some (Dir found) -> ~ In "node_modules" rel ->
    visits node rel found.
Proof.
  induction rel as [|segment rel IH]; intros node found; simpl.
  - intros [= ->] _. apply visits_here.
  - destruct node as [| files]; [discriminate |].
    destruct (Fs.assoc segment files) as [child |] eqn:Hchild; [| discriminate].
    intros Hrest Hnot.
    destruct child as [content | children].
    + destruct rel; discriminate.
    + apply (visits_below files segment children); [| tauto |].
      * now apply assoc_In.
      * apply IH; tauto.
Qed.

(** X16: the scan and the lookup fit together: for a file whose nearest
    manifest directory lies below the working directory on a way without
    [node_modules], and whose manifest there loads, the current package name
    that [create] reads from the registry is the name this manifest
    declares. *)
Theorem current_package_name_is_nearest_manifest_name (fs : entry) (cwd : path)
    (packageMap : registry) (file rel : path) (name : option string) :
  uniqueNames fs = true ->
  findInternalPackageNames fs cwd = Ok packageMap ->
  findPackageJson fs file = Some (cwd ++ rel) ->
  ~ In "node_modules" rel ->
  Fs.readManifestName fs (Path.join (cwd ++ rel) manifestName) = Ok name ->
  packageMap_get packageMap (findPackageJson fs file) = name.
Proof.
  intros Hu Hbuilt -> Hnot Hread.
  assert (Hnode : exists node, Fs.resolve fs cwd = Some node).
  { unfold findInternalPackageNames in Hbuilt.
    destruct (Fs.resolve fs cwd); [eauto | discriminate]. }
  destruct Hnode as [node Hcwd].
  unfold Fs.readManifestName, Path.join in Hread.
  rewrite !resolve_app, Hcwd in Hread.
  destruct (Fs.resolve node rel) as [[| found] |] eqn:Hrel;
    try (destruct rel; discriminate); simpl in Hread; try discriminate.
  destruct (Fs.assoc manifestName found) as [[[| declared] |] |] eqn:Hm;
    try discriminate.
  injection Hread as ->.
  assert (Hkey : packageMap !! (cwd ++ rel) = Some name).
  { apply (scanned_directory_registered fs cwd node); try assumption.
    exists rel, found. split; [now apply resolve_visits |].
    split; [reflexivity | now apply assoc_In]. }
  unfold packageMap_get. now rewrite Hkey.
Qed.

End Registry.

Lemma registry_holds_exactly_scanned_manifests_witness :
  sampleRegistry !! ["repo"; "ui"] = Some (Some "@root/ui").
Proof.
  eapply (proj2 (registry_holds_exactly_scanned_manifests sampleFs sampleCwd _
                   sampleRegistry ["repo"; "ui"] (Some "@root/ui")
                   eq_refl eq_refl eq_refl)).
  exists ["ui"]. eexists. split; [| split; [reflexivity |]].
  - eapply visits_below; [right; right; left; reflexivity | discriminate |].
    apply visits_here.
  - left. reflexivity.
Defined.

Lemma current_package_name_is_nearest_manifest_name_witness :
  packageMap_get sampleRegistry (findPackageJson sampleFs coreIndex)
  = Some "@root/core".
Proof.
  apply (current_package_name_is_nearest_manifest_name sampleFs sampleCwd
           sampleRegistry coreIndex ["core"] (Some "@root/core"));
    try reflexivity.
  cbv [In]. intuition discriminate.
Defined.

(** ** Which segment of a relative import names the target *)

Section Segments.
Import Js JsFacts.

Local Arguments String.append !_ _ / : simpl nomatch.

Lemma split_not_nil (s : string) : split "/" s <> [].
Proof.
  destruct s as [|c s]; simpl; [discriminate |].
  destruct (Ascii.eqb c "/"); [discriminate |].
  destruct (split "/" s); discriminate.
Qed.

Lemma split_append_separator (a b : string) :
  split "/" (a +:+ "/" +:+ b) = split "/" a ++ split "/" b.
Proof.
  induction a as [|c a IH]; [reflexivity |].
  change (String c a +:+ "/" +:+ b) with (String c (a +:+ "/" +:+ b)).
  cbn [split]. rewrite IH.
  destruct (Ascii.eqb c "/"); [reflexivity |].
  destruct (split "/" a) as [|h t] eqn:Ha; [now apply split_not_nil in Ha |].
  reflexivity.
Qed.

Lemma split_slashFree (s : string) : slashFree s = true -> split "/" s = [s].
Proof.
  induction s as [|c s IH]; simpl; [reflexivity |].
  intros H. apply andb_true_iff in H as [Hc Hs].
  apply negb_true_iff in Hc. rewrite Hc, (IH Hs). reflexivity.
Qed.

Lemma split_segments_slashFree (s segment : string) :
  In segment (split "/" s) -> slashFree segment = true.
Proof.
  revert segment. induction s as [|c s IH]; intros segment; simpl.
  - intros [<- | []]. reflexivity.
  - destruct (Ascii.eqb c "/") eqn:Hc.
    + intros [<- | H]; [reflexivity | auto].
    + destruct (split "/" s) as [|h t]; simpl.
      * intros [<- | []]. simpl. now rewrite Hc.
      * intros [<- | H]; [| apply IH; now right].
        simpl. rewrite Hc. simpl. apply IH. now left.
Qed.

Lemma split_join (segments : list string) :
  segments <> [] ->
  Forall (fun segment => slashFree segment = true) segments ->
  split "/" (join "/" segments) = segments.
Proof.
  intros Hne Hfree.
  induction Hfree as [|x rest Hx Hrest IH]; [contradiction |].
  destruct rest as [|y rest].
  - simpl. now apply split_slashFree.
  - change (join "/" (x :: y :: rest)) with (x +:+ "/" +:+ join "/" (y :: rest)).
    rewrite split_append_separator, (split_slashFree x Hx), IH by discriminate.
    reflexivity.
Qed.

Lemma split_leading_separator (s : string) :
  split "/" ("/" +:+ s) = EmptyString :: split "/" s.
Proof. reflexivity. Qed.

Lemma split_trailing_separator (s : string) :
  split "/" (s +:+ "/") = split "/" s ++ [EmptyString].
Proof.
  rewrite <- (append_empty_r (s +:+ "/")), append_assoc.
  now rewrite split_append_separator.
Qed.

End Segments.

Section Normalize.
Import Js JsFacts.

Variable fs : entry.
Variable cwd : path.

Local Abbreviation up := (fun segment : string => segment = "..").
Local Abbreviation skipped :=
  (fun segment : string => segment = EmptyString \/ segment = "." \/ segment = "..").

Lemma realSegment_iff (segment : string) :
  realSegment segment = true <->
  segment <> ".." /\ segment <> "." /\ segment <> EmptyString.
Proof.
  unfold realSegment. rewrite !andb_true_iff, !negb_true_iff, !String.eqb_neq.
  tauto.
Qed.

Lemma normalizeStep_skipped (allowAboveRoot : bool) (stack : list string)
    (segment : string) :
  skipped segment -> Forall up stack ->
  Forall up (Path.normalizeStep allowAboveRoot stack segment).
Proof.
  intros [-> | [-> | ->]] Hstack; unfold Path.normalizeStep; simpl; try assumption.
  destruct (last stack) as [l |] eqn:Hlast.
  - apply last_Some in Hlast as [stack' ->].
    pose proof Hstack as Hl. rewrite Forall_app, Forall_singleton in Hl.
    destruct Hl as [_ ->]. simpl.
    destruct allowAboveRoot; [| assumption].
    apply Forall_app. split; [assumption | now apply Forall_singleton].
  - destruct allowAboveRoot; [now apply Forall_singleton | constructor].
Qed.

Lemma fold_skipped (allowAboveRoot : bool) (pre : list string) :
  Forall skipped pre ->
  forall stack, Forall up stack ->
    Forall up (fold_left (Path.normalizeStep allowAboveRoot) pre stack).
Proof.
  induction 1 as [|segment pre Hsegment _ IH]; intros stack Hstack; simpl;
    [assumption |].
  apply IH. now apply normalizeStep_skipped.
Qed.

Lemma normalizeStep_real (allowAboveRoot : bool) (stack : list string)
    (segment : string) :
  realSegment segment = true ->
  Path.normalizeStep allowAboveRoot stack segment = stack ++ [segment].
Proof.
  intros H. apply realSegment_iff in H as (Hup & Hdot & Hempty).
  apply String.eqb_neq in Hup, Hdot, Hempty.
  unfold Path.normalizeStep. now rewrite Hempty, Hdot, Hup.
Qed.

Lemma fold_without_up (allowAboveRoot : bool) (post : list string) :
  ~ In ".." post ->
  forall stack, exists more,
    fold_left (Path.normalizeStep allowAboveRoot) post stack = stack ++ more /\
    forall segment, In segment more -> In segment post.
Proof.
  induction post as [|segment post IH]; intros Hnot stack; simpl.
  - exists []. rewrite app_nil_r. split; [reflexivity | tauto].
  - assert (Hpost : ~ In ".." post) by (simpl in Hnot; tauto).
    assert (Hsegment : segment <> "..") by (simpl in Hnot; tauto).
    unfold Path.normalizeStep at 2.
    destruct (String.eqb segment EmptyString || String.eqb segment ".").
    + destruct (IH Hpost stack) as (more & -> & Hmore).
      exists more. split; [reflexivity | auto].
    + apply String.eqb_neq in Hsegment. rewrite Hsegment.
      destruct (IH Hpost (stack ++ [segment])) as (more & -> & Hmore).
      exists (segment :: more). rewrite <- app_assoc. split; [reflexivity |].
      intros s [<- | H]; auto.
Qed.

Lemma find_first_real (dots rest : list string) (segment : string) :
  Forall up dots -> realSegment segment = true ->
  List.find realSegment (dots ++ segment :: rest) = Some segment.
Proof.
  intros Hdots Hreal. induction Hdots as [|d dots -> _ IH]; simpl.
  - now rewrite Hreal.
  - exact IH.
Qed.

(** The segment that [getPackageNameFromPath] finds in a normalised import
    path. *)
Lemma normalized_first_real_segment (importPath : string)
    (pre post : list string) (segment : string) :
  split "/" importPath = pre ++ segment :: post ->
  Forall skipped pre ->
  realSegment segment = true ->
  ~ In ".." post ->
  List.find realSegment (split "/" (Path.normalize importPath)) = Some segment.
Proof.
  intros Hsplit Hpre Hreal Hpost.
  pose proof (proj1 (realSegment_iff segment) Hreal) as (Hup & Hdot & Hempty).
  assert (Hpath : String.eqb importPath EmptyString = false).
  { apply String.eqb_neq. intros ->. simpl in Hsplit.
    destruct pre as [|x [|y pre]]; simplify_eq/=. }
  unfold Path.normalize. rewrite Hpath.
  set (isAbsolute := startsWith "/" importPath).
  set (trailingSeparator := endsWithChar "/" importPath).
  unfold Path.normalizeString. rewrite Hsplit, fold_left_app. simpl fold_left.
  pose proof (fold_skipped (negb isAbsolute) pre Hpre [] (List.Forall_nil _)) as Hdots.
  set (dots := fold_left (Path.normalizeStep (negb isAbsolute)) pre []) in *.
  rewrite (normalizeStep_real _ dots segment Hreal).
  destruct (fold_without_up (negb isAbsolute) post Hpost (dots ++ [segment]))
    as (more & -> & Hmore).
  rewrite <- app_assoc. simpl app.
  set (stack := dots ++ segment :: more).
  assert (Hfree : Forall (fun s => slashFree s = true) stack).
  { apply Forall_app. split.
    - eapply Forall_impl; [exact Hdots |]. now intros s ->.
    - apply Forall_cons. split.
      + apply (split_segments_slashFree importPath). rewrite Hsplit.
        apply in_or_app. right. now left.
      + apply Forall_forall. intros s Hs. apply list_elem_of_In in Hs.
        apply (split_segments_slashFree importPath). rewrite Hsplit.
        apply in_or_app. right. right. auto. }
  assert (Hstack : stack <> []) by (subst stack; now destruct dots).
  pose proof (split_join stack Hstack Hfree) as Hround.
  assert (Hres : String.eqb (join "/" stack) EmptyString = false).
  { apply String.eqb_neq. intros E. rewrite E in Hround. simpl in Hround.
    subst stack. destruct dots as [|d [|d' dots]]; simplify_eq/=. }
  rewrite Hres.
  assert (Hfind : List.find realSegment stack = Some segment)
    by now apply find_first_real.
  assert (Hfind' : List.find realSegment (stack ++ [EmptyString]) = Some segment).
  { subst stack. rewrite <- app_assoc. simpl. now apply find_first_real. }
  destruct trailingSeparator, isAbsolute;
    rewrite ?split_leading_separator, ?split_trailing_separator, Hround;
    simpl; assumption.
Qed.

End Normalize.

Section FirstSegment.
Import Js JsFacts.

Variable fs : entry.
Variable cwd : path.

(** X18: the target of a relative import is named by the first segment of
    the import path that is neither empty, [.] nor [..], provided no [..]
    follows it: the import resolves as that bare segment would, so the
    number of leading [../] steps and everything after the segment play no
    part, and neither does the file the import stands in. *)
Theorem target_named_by_first_real_segment (importPath : string) (file file' : path)
    (pre post : list string) (segment : string) :
  split "/" importPath = pre ++ segment :: post ->
  Forall (fun s => s = EmptyString \/ s = "." \/ s = "..") pre ->
  segment <> ".." -> segment <> "." -> segment <> EmptyString ->
  ~ In ".." post ->
  getPackageNameFromPath fs cwd importPath file
  = getPackageNameFromPath fs cwd segment file'.
Proof.
  intros Hsplit Hpre Hup Hdot Hempty Hpost.
  assert (Hreal : realSegment segment = true)
    by (apply realSegment_iff; auto).
  assert (Hfree : slashFree segment = true).
  { apply (split_segments_slashFree importPath). rewrite Hsplit.
    apply in_or_app. right. now left. }
  unfold getPackageNameFromPath.
  change (fun s : string =>
            negb (String.eqb s "..") && negb (String.eqb s ".")
            && negb (String.eqb s EmptyString)) with realSegment.
  rewrite (normalized_first_real_segment importPath pre post segment)
    by assumption.
  rewrite (normalized_first_real_segment segment [] [] segment);
    [reflexivity | | constructor | assumption | tauto].
  now apply split_slashFree.
Qed.

End FirstSegment.

Lemma target_named_by_first_real_segment_witness :
  getPackageNameFromPath sampleFs sampleCwd "../.././ui/src/button" coreIndex
  = getPackageNameFromPath sampleFs sampleCwd "ui" nestedButton.
Proof.
  apply (target_named_by_first_real_segment sampleFs sampleCwd
           "../.././ui/src/button" coreIndex nestedButton [".."; ".."; "."]
           ["src"; "button"] "ui");
    [reflexivity | | discriminate | discriminate | discriminate |].
  - repeat (apply List.Forall_cons; [auto |]). apply List.Forall_nil.
  - cbv [In]. intuition discriminate.
Defined.

(** ** Policies that leave out a list *)

Section OmittedLists.

Variable rootPackageName : string.
Variable fs : entry.
Variable cwd : path.
Variable packageMap : registry.

Local Abbreviation short := (getShortPackageName rootPackageName).

(** C2 fails on the code for a policy that leaves out a list, which the
    schema allows: in a file of a named registered package, an absolute
    internal import makes the rule throw a [TypeError] when the policy found
    for the package has no [allow], and also when it has no [restrict] and
    the import passes the allow-list; neither a report nor a pass results. *)
Theorem policy_without_list_throws_on_absolute_import (options : list policy)
    (file : path) (current : string) (config : policy) (importPath : string) :
  packageMap_get packageMap (findPackageJson fs file) = Some current ->
  findConfigByPackageName rootPackageName options (Some current) = Ok config ->
  Js.includes rootPackageName importPath = true ->
  isRelativeImport importPath = false ->
  (allow config = None \/
   exists allowed,
     allow config = Some allowed /\ restrict config = None /\
     (In "*" allowed \/ In (short importPath) allowed)) ->
  lint rootPackageName fs cwd packageMap options file [importPath]
  = Throw TypeError.
Proof.
  intros Hfile Hconfig Hinternal Habsolute Hlists.
  unfold lint, create. rewrite Hfile, Hconfig. simpl.
  rewrite ImportDeclaration_absolute by assumption.
  unfold handleAbsoluteImport. simpl.
  destruct Hlists as [-> | (allowed & -> & -> & Hallowed)]; [reflexivity |].
  now rewrite (proj2 (allowed_iff _ _) Hallowed).
Qed.

End OmittedLists.

Lemma policy_without_list_throws_on_absolute_import_witness :
  lint "root" sampleFs sampleCwd sampleRegistry
    [Policy "core" (Some ["data"]) None] coreIndex ["@root/data"]
  = Throw TypeError /\
  lint "root" sampleFs sampleCwd sampleRegistry
    [Policy "core" None (Some [])] coreIndex ["@root/ui"]
  = Throw TypeError.
Proof.
  split.
  - apply (policy_without_list_throws_on_absolute_import "root" sampleFs sampleCwd
             sampleRegistry [Policy "core" (Some ["data"]) None] coreIndex
             "@root/core" (Policy "core" (Some ["data"]) None) "@root/data");
      try (vm_compute; reflexivity).
    right. exists ["data"]. repeat split. right. left. reflexivity.
  - apply (policy_without_list_throws_on_absolute_import "root" sampleFs sampleCwd
             sampleRegistry [Policy "core" None (Some [])] coreIndex
             "@root/core" (Policy "core" None (Some [])) "@root/ui");
      try (vm_compute; reflexivity).
    left. reflexivity.
Defined.
